(** * VirtualiZarr: [virtualizarr/manifests/array.py]

    A shallow embedding of the [ManifestArray] wrapper, of its NumPy protocol
    hooks and of [concatenate] with its compatibility validators, followed by
    the properties established about them.

    Python exceptions are values of [exn]; a computation that may raise and
    that may build objects is a function from the log of what was built so
    far to an outcome and the extended log (type [M]).  Attribute reads and
    other computations that build nothing live in [result]. *)

From stdpp Require Import base option list gmap strings pretty.

Local Open Scope Z_scope.

(** ** Python exceptions and outcomes *)

Inductive exn : Type :=
  | NotImplementedError (msg : string)
  | ValueError (msg : string)
  | IndexError (msg : string)
  | AttributeError (msg : string)
  | TypeError (msg : string)
  | KeyError (msg : string).

(** The exception class, without the message. *)
Inductive exn_class : Type :=
  | cNotImplementedError | cValueError | cIndexError
  | cAttributeError | cTypeError | cKeyError.

Definition class_of (e : exn) : exn_class :=
  match e with
  | NotImplementedError _ => cNotImplementedError
  | ValueError _ => cValueError
  | IndexError _ => cIndexError
  | AttributeError _ => cAttributeError
  | TypeError _ => cTypeError
  | KeyError _ => cKeyError
  end.

Definition message (e : exn) : string :=
  match e with
  | NotImplementedError m | ValueError m | IndexError m
  | AttributeError m | TypeError m | KeyError m => m
  end.

#[global] Instance exn_eq_dec : EqDecision exn.
Proof. solve_decision. Defined.
#[global] Instance exn_class_eq_dec : EqDecision exn_class.
Proof. solve_decision. Defined.

Inductive result (A : Type) : Type :=
  | Ok (a : A)
  | Raise (e : exn).
Arguments Ok {A} a.
Arguments Raise {A} e.

#[global] Instance result_ret : MRet result := fun A a => Ok a.
#[global] Instance result_bind : MBind result := fun A B f r =>
  match r with
  | Ok a => f a
  | Raise e => Raise e
  end.
#[global] Instance result_fmap : FMap result := fun A B f r =>
  match r with
  | Ok a => Ok (f a)
  | Raise e => Raise e
  end.

Definition raised {A} (r : result A) : bool :=
  match r with Ok _ => false | Raise _ => true end.

(** ** Strings: substring test and Python's [repr] of integers and tuples *)

Fixpoint contains (needle hay : string) : bool :=
  String.prefix needle hay ||
  match hay with
  | EmptyString => false
  | String _ hay' => contains needle hay'
  end.

Fixpoint join (sep : string) (l : list string) : string :=
  match l with
  | [] => ""
  | [s] => s
  | s :: l' => s +:+ sep +:+ join sep l'
  end.

(** [repr] of a Python [int]. *)
Definition repr_int (z : Z) : string := pretty z.

(** [repr] of a tuple of ints: [()], [(3,)], [(3, 4)]. *)
Definition repr_tuple (t : list Z) : string :=
  match t with
  | [] => "()"
  | [x] => "(" +:+ repr_int x +:+ ",)"
  | _ => "(" +:+ join ", " (repr_int <$> t) +:+ ")"
  end.

(** [repr] of a list of tuples of ints: [[(3, 4), (5, 4)]]. *)
Definition repr_list_of_tuples (l : list (list Z)) : string :=
  "[" +:+ join ", " (repr_tuple <$> l) +:+ "]".

(** ** Python sequence indexing

    An index [i] into a sequence of length [n] is valid when
    [-n <= i < n]; a negative index counts from the end. *)

Definition normalize_index (n : nat) (i : Z) : option nat :=
  if bool_decide (0 <= i < Z.of_nat n) then Some (Z.to_nat i)
  else if bool_decide (- Z.of_nat n <= i < 0) then Some (Z.to_nat (Z.of_nat n + i))
  else None.

(** [t[i]] on a tuple. *)
Definition tuple_getitem {A} (t : list A) (i : Z) : result A :=
  match normalize_index (length t) i ≫= (t !!.) with
  | Some x => Ok x
  | None => Raise (IndexError "tuple index out of range")
  end.

(** [l.pop(i)]: the list that remains (the popped element is not used by
    the callers in this file). *)
Definition list_pop {A} (l : list A) (i : Z) : result (list A) :=
  match l with
  | [] => Raise (IndexError "pop from empty list")
  | _ =>
      match normalize_index (length l) i with
      | Some k => Ok (delete k l)
      | None => Raise (IndexError "pop index out of range")
      end
  end.

(** [l[i] = x] on a list. *)
Definition list_setitem {A} (l : list A) (i : Z) (x : A) : result (list A) :=
  match normalize_index (length l) i with
  | Some k => Ok (<[k := x]> l)
  | None => Raise (IndexError "list assignment index out of range")
  end.

(** [first, *others = l]. *)
Definition unpack_first {A} (l : list A) : result (A * list A) :=
  match l with
  | [] => Raise (ValueError "not enough values to unpack (expected at least 1, got 0)")
  | x :: l' => Ok (x, l')
  end.

(** [sum(l)] on Python ints. *)
Definition py_sum (l : list Z) : Z := foldl Z.add 0 l.

(** ** NumPy: dtypes and [np.prod] *)

(** Modelled from the spec: NumPy's dtype object is not part of this
    repository.  A dtype descriptor is identified by its canonical name
    (["float64"], ["int32"]), which is also what [str] prints; two
    descriptors are equal when their names are. *)
Record Dtype : Type := { dtype_name : string }.

#[global] Instance Dtype_eq_dec : EqDecision Dtype.
Proof. solve_decision. Defined.

Definition str_dtype (d : Dtype) : string := dtype_name d.

(** [np.dtype(d)] for [d] already a dtype descriptor returns [d]. *)
Definition np_dtype (d : Dtype) : Dtype := d.

(** What [np.prod] returns.  The default integer of NumPy on 64-bit Linux
    and macOS is the signed 64-bit integer; its multiplication wraps. *)
Inductive np_number : Type :=
  | np_int64 (z : Z)
  | np_float64_one            (* the float [1.0], product of no factors *)
  | np_untracked.             (* a scalar of a dtype not modelled here
                                 (an entry did not fit in int64) *)

Definition int64_min : Z := - 2 ^ 63.
Definition int64_max : Z := 2 ^ 63 - 1.

Definition fits_int64 (z : Z) : bool :=
  bool_decide (int64_min <= z <= int64_max).

(** Two's-complement reduction into the signed 64-bit range. *)
Definition wrap64 (z : Z) : Z := (z + 2 ^ 63) mod 2 ^ 64 - 2 ^ 63.

Definition mul64 (a b : Z) : Z := wrap64 (a * b).

(** [np.prod(t)] on a tuple of Python ints: the tuple becomes an int64
    array when every entry fits (a float64 array when it is empty), and
    the entries are multiplied in that type. *)
Definition np_prod (t : list Z) : np_number :=
  match t with
  | [] => np_float64_one
  | _ => if forallb fits_int64 t then np_int64 (foldl mul64 1 t)
         else np_untracked
  end.

(** The mathematical product of the entries. *)
Definition product (t : list Z) : Z := foldr Z.mul 1 t.

(** ** Data model *)

(** Modelled from the spec: the byte-range reference of [manifest.py]
    (location, offset, length), which is not among the sources. *)
Record ByteRange : Type :=
  { location : string; offset : Z; nbytes : Z }.

(** Modelled from the spec: the chunk manifest of [manifest.py]: the
    number of chunks per dimension and the mapping from grid coordinate to
    byte-range reference. *)
Record ChunkManifest : Type :=
  { grid_shape : list Z; entries : gmap (list Z) ByteRange }.

(** Modelled from the spec: the codec descriptor of [zarr.py], opaque and
    comparable for equality; [str] prints its text. *)
Record Codec : Type := { codec_text : string }.

#[global] Instance Codec_eq_dec : EqDecision Codec.
Proof. solve_decision. Defined.

Definition str_codec (c : Codec) : string := codec_text c.

(** Modelled from the spec: the array metadata descriptor [ZArray] of
    [zarr.py] (shape, chunk shape, dtype, codec). *)
Record ZArray : Type :=
  { zarray_shape : list Z;
    zarray_chunks : list Z;
    zarray_dtype : Dtype;
    zarray_codec : Codec }.

(** The two attributes of a [ManifestArray].  [_zarray] is [None] when the
    Python attribute holds [None]. *)
Record ManifestArray : Type :=
  { _manifest : ChunkManifest; _zarray : option ZArray }.

(** ** Computations that build objects *)

Inductive event : Type :=
  | Call (fn : string)                      (* a helper was called *)
  | NewChunkManifest (m : ChunkManifest)    (* a manifest was built *)
  | NewManifestArray (a : ManifestArray).   (* [ManifestArray.__init__] ran *)

Definition M (A : Type) : Type := list event → result A * list event.

#[global] Instance M_ret : MRet M := fun A a t => (Ok a, t).
#[global] Instance M_bind : MBind M := fun A B f c t =>
  match c t with
  | (Ok a, t') => f a t'
  | (Raise e, t') => (Raise e, t')
  end.

Definition raise {A} (e : exn) : M A := fun t => (Raise e, t).
Definition lift {A} (r : result A) : M A := fun t => (r, t).
Definition emit (ev : event) : M unit := fun t => (Ok (), t ++ [ev]).

(** Calling a helper that builds nothing: the call is logged, then the
    helper returns or raises. *)
Definition call {A} (fn : string) (r : result A) : M A :=
  emit (Call fn);; lift r.

(** Running a computation from the empty log. *)
Definition run {A} (c : M A) : result A * list event := c [].

Definition is_construction (ev : event) : bool :=
  match ev with
  | Call _ => false
  | NewChunkManifest _ | NewManifestArray _ => true
  end.

(** [for x in l: body(x)], stopping at the first exception. *)
Fixpoint for_each {A} (l : list A) (body : A → result unit) : result unit :=
  match l with
  | [] => Ok ()
  | x :: l' => body x;; for_each l' body
  end.

(** ** The manifest module: [concat_manifests] *)

(** Modelled from the spec: the coordinate of an emitted entry is the
    input coordinate with its [axis] component shifted by the offset of
    the manifest it comes from. *)
Definition shift_coordinate (axis : nat) (by_offset : Z) (coord : list Z) : list Z :=
  alter (Z.add by_offset) axis coord.

(** Modelled from the spec: one entry of an input manifest is emitted at
    its shifted coordinate; two inputs producing the same output
    coordinate fail loudly instead of overwriting. *)
Definition emit_entry (axis : nat) (by_offset : Z)
    (out : result (gmap (list Z) ByteRange)) (entry : list Z * ByteRange)
    : result (gmap (list Z) ByteRange) :=
  out ← out;
  let coord := shift_coordinate axis by_offset entry.1 in
  match out !! coord with
  | Some _ => Raise (ValueError "two chunks at one coordinate")
  | None => Ok (<[coord := entry.2]> out)
  end.

(** Modelled from the spec: the inputs are emitted in order, the offset
    growing by the grid length of each along [axis]. *)
Fixpoint merge_along (axis : nat) (by_offset : Z) (manifests : list ChunkManifest)
    (out : gmap (list Z) ByteRange) : result (gmap (list Z) ByteRange) :=
  match manifests with
  | [] => Ok out
  | m :: rest =>
      out' ← foldl (emit_entry axis by_offset) (Ok out) (map_to_list (entries m));
      merge_along axis (by_offset + default 0 (grid_shape m !! axis)) rest out'
  end.

(** Modelled from the spec: [concat_manifests] of [manifest.py], which is
    not among the sources.  The offset of manifest [i] along [axis] is the
    sum of the grid lengths of manifests [0..i-1] there; every entry is
    emitted with its [axis] coordinate shifted by that offset; the grid
    shape is the first one with the [axis] entry replaced by the sum.  An
    empty list, an axis outside [0 <= axis < rank], grid shapes that
    disagree off the axis and colliding coordinates are reported as
    [ValueError]. *)
Definition concat_manifests_result (manifests : list ChunkManifest) (axis : Z)
    : result ChunkManifest :=
  match manifests with
  | [] => Raise (ValueError "no manifests to concatenate")
  | first :: others =>
      if negb (bool_decide (0 <= axis < Z.of_nat (length (grid_shape first))))
      then Raise (ValueError "axis out of range")
      else
        let k := Z.to_nat axis in
        if negb (forallb (fun m => bool_decide
                    (delete k (grid_shape m) = delete k (grid_shape first)
                     ∧ length (grid_shape m) = length (grid_shape first))) others)
        then Raise (ValueError "grid shapes differ off the concatenation axis")
        else
          out ← merge_along k 0 manifests ∅;
          let total := py_sum ((fun m => default 0 (grid_shape m !! k)) <$> manifests) in
          Ok {| grid_shape := <[k := total]> (grid_shape first); entries := out |}
  end.

Definition concat_manifests (manifests : list ChunkManifest) (axis : Z)
    : M ChunkManifest :=
  emit (Call "concat_manifests");;
  m ← lift (concat_manifests_result manifests axis);
  emit (NewChunkManifest m);;
  mret m.

(** ** [class ManifestArray]

    The kerchunk conversions and [__repr__] play no part in the properties
    below and are left out. *)

(** Reading attribute [name] of [self._zarray]. *)
Definition getattr {A} (name : string) (proj : ZArray → A) (z : option ZArray)
    : result A :=
  match z with
  | Some z => Ok (proj z)
  | None => Raise (AttributeError
              ("'NoneType' object has no attribute '" +:+ name +:+ "'"))
  end.

(** [ManifestArray.__init__] *)
Definition __init__ (zarray : option ZArray) (chunkmanifest : ChunkManifest)
    : M ManifestArray :=
  let self := {| _manifest := chunkmanifest; _zarray := zarray |} in
  emit (NewManifestArray self);;
  mret self.

Definition manifest (self : ManifestArray) : ChunkManifest := _manifest self.

Definition zarray (self : ManifestArray) : option ZArray := _zarray self.

Definition chunks (self : ManifestArray) : result (list Z) :=
  getattr "chunks" zarray_chunks (zarray self).

Definition dtype (self : ManifestArray) : result Dtype :=
  dtype_str ← getattr "dtype" zarray_dtype (zarray self);
  Ok (np_dtype dtype_str).

(** [int(length)] on a Python int. *)
Definition py_int (length : Z) : Z := length.

Definition shape (self : ManifestArray) : result (list Z) :=
  s ← getattr "shape" zarray_shape (zarray self);
  Ok (map py_int s).

Definition ndim (self : ManifestArray) : result Z :=
  s ← shape self;
  Ok (Z.of_nat (length s)).

Definition size (self : ManifestArray) : result np_number :=
  s ← shape self;
  Ok (np_prod s).

Definition T (self : ManifestArray) : result ManifestArray :=
  Raise (NotImplementedError "").

(** [__repr__]: the f-string reads [shape], [dtype] and [chunks] in that
    order and prints the tuples and the dtype. *)
Definition __repr__ (self : ManifestArray) : result string :=
  self_shape ← shape self;
  self_dtype ← dtype self;
  self_chunks ← chunks self;
  Ok ("ManifestArray<shape=" +:+ repr_tuple self_shape
      +:+ ", dtype=" +:+ str_dtype self_dtype
      +:+ ", chunks=" +:+ repr_tuple self_chunks +:+ ">").

Definition to_zarr {Store : Type} (self : ManifestArray) (store : Store) : M () :=
  raise (NotImplementedError
    "Requires the chunk manifest ZEP to be formalized before we know what to write out here.").

(** ** Validators *)

Definition _check_same_dtypes (dtypes : list Dtype) : result () :=
  '(first_dtype, other_dtypes) ← unpack_first dtypes;
  for_each other_dtypes (fun other_dtype =>
    if bool_decide (other_dtype ≠ first_dtype) then
      Raise (ValueError
        ("Cannot concatenate arrays with inconsistent dtypes: "
         +:+ str_dtype other_dtype +:+ " vs " +:+ str_dtype first_dtype))
    else Ok ()).

Definition _remove_element_at_position {A} (t : list A) (pos : Z) : result (list A) :=
  let new_l := t in
  list_pop new_l pos.

Definition _check_same_shapes_except_on_concat_axis
    (shapes : list (list Z)) (axis : Z) : result () :=
  shapes_without_concat_axis ←
    mapM (fun shape => _remove_element_at_position shape axis) shapes;
  '(first_shape, other_shapes) ← unpack_first shapes_without_concat_axis;
  for_each other_shapes (fun other_shape =>
    if bool_decide (other_shape ≠ first_shape) then
      Raise (ValueError
        ("Cannot concatenate arrays with shapes " +:+ repr_list_of_tuples shapes))
    else Ok ()).

Definition _check_same_codecs (codecs : list Codec) : result () :=
  '(first_codec, other_codecs) ← unpack_first codecs;
  for_each other_codecs (fun codec =>
    if bool_decide (codec ≠ first_codec) then
      Raise (NotImplementedError
        ("The ManifestArray class cannot concatenate arrays which were stored using different codecs, "
         +:+ "But found codecs " +:+ str_codec first_codec +:+ " vs "
         +:+ str_codec codec +:+ " ."
         +:+ "See https://github.com/zarr-developers/zarr-specs/issues/288"))
    else Ok ()).

(** ** [concatenate] *)

(** The value bound to [new_shape]: a list of ints, or the [Ellipsis]
    object. *)
Inductive shape_value : Type :=
  | ShapeList (l : list Z)
  | Ellipsis.

(** The body of [_replace_shape] is the expression [...]: the function
    evaluates it and returns [None]. *)
Definition _replace_shape (zarray : option ZArray) (new_shape : shape_value)
    : option ZArray :=
  None.

Definition axis_none_message : string :=
  "If axis=None the array API requires flattening, which is a reshape, which can't be implemented on a ManifestArray.".

Definition concatenate (arrays : list ManifestArray) (axis : option Z)
    : M ManifestArray :=
  match axis with
  | None => raise (NotImplementedError axis_none_message)
  | Some axis =>
      dtypes ← lift (mapM dtype arrays);
      call "_check_same_dtypes" (_check_same_dtypes dtypes);;
      shapes ← lift (mapM shape arrays);
      call "_check_same_shapes_except_on_concat_axis"
        (_check_same_shapes_except_on_concat_axis shapes axis);;
      codecs ← lift (mapM (fun arr => getattr "codec" zarray_codec (zarray arr)) arrays);
      call "_check_same_codecs" (_check_same_codecs codecs);;
      lengths ← lift (mapM (fun shape => tuple_getitem shape axis) shapes);
      let new_length_along_concat_axis := py_sum lengths in
      '(first_shape, _) ← lift (unpack_first shapes);
      new_shape ← lift (ShapeList <$> list_setitem first_shape axis new_length_along_concat_axis);
      concatenated_manifest ← concat_manifests (_manifest <$> arrays) axis;
      let new_shape := Ellipsis in
      first_array ← lift (tuple_getitem arrays 0);
      new_zarray ← call "_replace_shape" (Ok (_replace_shape (_zarray first_array) new_shape));
      __init__ new_zarray concatenated_manifest
  end.

(** ** [result_type] *)

(** An argument of [result_type]: an array or a dtype. *)
Inductive array_or_dtype : Type :=
  | an_array (a : ManifestArray)
  | a_dtype (d : Dtype).

(** [np.dtype(obj)]: a dtype is returned as it is; for an object with a
    [dtype] attribute NumPy reads that attribute. *)
Definition np_dtype_of (obj : array_or_dtype) : result Dtype :=
  match obj with
  | an_array a => dtype a
  | a_dtype d => Ok (np_dtype d)
  end.

Definition result_type (arrays_and_dtypes : list array_or_dtype) : result Dtype :=
  all_dtypes ← mapM np_dtype_of arrays_and_dtypes;
  '(first_dtype, other_dtypes) ← unpack_first all_dtypes;
  for_each other_dtypes (fun other_dtype =>
    if bool_decide (other_dtype ≠ first_dtype) then
      Raise (ValueError "dtypes not all consistent")
    else Ok ());;
  Ok first_dtype.

(** ** NumPy protocol hooks and the registry *)

(** The Python values that cross the dispatch hook. *)
#[warnings="-register-all"] Inductive pyval : Type :=
  | PyNone
  | PyNotImplemented
  | PyInt (z : Z)
  | PyDtype (d : Dtype)
  | PyArray (a : ManifestArray)
  | PySeq (l : list pyval).

(** A Python callable as the hook calls it: [f( *args, **kwargs)]. *)
Definition callable : Type := list pyval → gmap string pyval → M pyval.

(** A class, with the names of the classes of its method resolution order
    (itself first). *)
Record pyclass : Type := { class_name : string; class_mro : list string }.

Definition issubclass (t c : pyclass) : bool :=
  bool_decide (class_name c ∈ class_mro t).

Definition ManifestArray_class : pyclass :=
  {| class_name := "ManifestArray"; class_mro := ["ManifestArray"; "object"] |}.

#[global] Instance M_fmap : FMap M := fun A B f c t =>
  match c t with
  | (Ok a, t') => (Ok (f a), t')
  | (Raise e, t') => (Raise e, t')
  end.

Definition as_arrays (v : pyval) : option (list ManifestArray) :=
  match v with
  | PySeq l => mapM (fun x => match x with PyArray a => Some a | _ => None end) l
  | _ => None
  end.

Definition as_axis (v : pyval) : option (option Z) :=
  match v with
  | PyNone => Some None
  | PyInt z => Some (Some z)
  | _ => None
  end.

Definition as_array_or_dtype (v : pyval) : option array_or_dtype :=
  match v with
  | PyArray a => Some (an_array a)
  | PyDtype d => Some (a_dtype d)
  | _ => None
  end.

(** [concatenate] as a callable, with the binding of its signature
    [(arrays, /, *, axis=0)]: one positional argument, and the keyword
    [axis], which is 0 when it is not given.  A call whose arguments are
    not of the annotated types is outside this model and is reported as
    [TypeError]. *)
Definition concatenate_callable : callable := fun args kwargs =>
  match args with
  | [arrays] =>
      if bool_decide (delete "axis" kwargs = ∅) then
        let axis := default (PyInt 0) (kwargs !! "axis") in
        match as_arrays arrays, as_axis axis with
        | Some arrays, Some axis => PyArray <$> concatenate arrays axis
        | _, _ => raise (TypeError "argument outside the annotated types")
        end
      else raise (TypeError "concatenate() got an unexpected keyword argument")
  | _ => raise (TypeError "concatenate() takes exactly 1 positional argument")
  end.

(** [result_type] as a callable, with the binding of its signature
    [( *arrays_and_dtypes)]: no keyword is accepted. *)
Definition result_type_callable : callable := fun args kwargs =>
  if bool_decide (kwargs = ∅) then
    match mapM as_array_or_dtype args with
    | Some arrays_and_dtypes => lift (PyDtype <$> result_type arrays_and_dtypes)
    | None => raise (TypeError "argument outside the annotated types")
    end
  else raise (TypeError "result_type() got an unexpected keyword argument").

(** NumPy functions are identified by their qualified names. *)
Definition np_concatenate : string := "numpy.concatenate".
Definition np_result_type : string := "numpy.result_type".

(** The decorator [@implements(numpy_function)]: registers [func]. *)
Definition implements (numpy_function : string) (func : callable)
    (registry : gmap string callable) : gmap string callable :=
  <[numpy_function := func]> registry.

(** The registry once the module is loaded: it starts empty and the two
    decorated definitions are registered in source order. *)
Definition HANDLED_ARRAY_FUNCTIONS : gmap string callable :=
  implements np_result_type result_type_callable
    (implements np_concatenate concatenate_callable ∅).

Definition __array_function__ (self : ManifestArray) (func : string)
    (types : list pyclass) (args : list pyval) (kwargs : gmap string pyval)
    : M pyval :=
  if negb (bool_decide (is_Some (HANDLED_ARRAY_FUNCTIONS !! func))) then
    mret PyNotImplemented
  else if negb (forallb (fun t => issubclass t ManifestArray_class) types) then
    mret PyNotImplemented
  else
    match HANDLED_ARRAY_FUNCTIONS !! func with
    | Some implementation => implementation args kwargs
    | None => raise (KeyError func)
    end.

Definition __array_ufunc__ (self : ManifestArray) (ufunc method : string)
    (inputs : list pyval) (kwargs : gmap string pyval) : M pyval :=
  mret PyNotImplemented.

Definition __array__ (self : ManifestArray) : M pyval :=
  raise (NotImplementedError
    "ManifestArrays can't be converted into numpy arrays or pandas Index objects").

(** ** Concrete arrays used in the examples *)

Definition float64 : Dtype := {| dtype_name := "float64" |}.
Definition int32 : Dtype := {| dtype_name := "int32" |}.
Definition zlib : Codec := {| codec_text := "compressor=zlib filters=None" |}.
Definition blosc : Codec := {| codec_text := "compressor=blosc filters=None" |}.

Definition one_chunk (path : string) (shp : list Z) : ChunkManifest :=
  {| grid_shape := [1; 1];
     entries := {[ [0; 0] := {| location := path; offset := 0;
                                nbytes := 8 * product shp |} ]} |}.

Definition make_array (path : string) (shp : list Z) (d : Dtype) (c : Codec)
    : ManifestArray :=
  {| _manifest := one_chunk path shp;
     _zarray := Some {| zarray_shape := shp; zarray_chunks := shp;
                        zarray_dtype := d; zarray_codec := c |} |}.

Definition arr_3x4 : ManifestArray := make_array "a.nc" [3; 4] float64 zlib.
Definition arr_5x4 : ManifestArray := make_array "b.nc" [5; 4] float64 zlib.
Definition arr_5x4_int32 : ManifestArray := make_array "b.nc" [5; 4] int32 zlib.
Definition arr_5x4_blosc : ManifestArray := make_array "b.nc" [5; 4] float64 blosc.
Definition arr_5x7 : ManifestArray := make_array "b.nc" [5; 7] float64 zlib.

(** ** Vocabulary of the properties *)

(** The statements of [concatenate] that follow the three validators. *)
Definition derive_output (arrays : list ManifestArray) (axis : Z)
    (shapes : list (list Z)) : M ManifestArray :=
  lengths ← lift (mapM (fun shape => tuple_getitem shape axis) shapes);
  let new_length_along_concat_axis := py_sum lengths in
  '(first_shape, _) ← lift (unpack_first shapes);
  new_shape ← lift (ShapeList <$> list_setitem first_shape axis new_length_along_concat_axis);
  concatenated_manifest ← concat_manifests (_manifest <$> arrays) axis;
  let new_shape := Ellipsis in
  first_array ← lift (tuple_getitem arrays 0);
  new_zarray ← call "_replace_shape" (Ok (_replace_shape (_zarray first_array) new_shape));
  __init__ new_zarray concatenated_manifest.

(** The three validator calls, in the order in which [concatenate] makes
    them. *)
Definition validator_calls : list event :=
  [Call "_check_same_dtypes";
   Call "_check_same_shapes_except_on_concat_axis";
   Call "_check_same_codecs"].

(** A check fails on the values read from the arrays. *)
Definition fails {A} (values : result A) (check : A → result ()) : bool :=
  match values with
  | Ok x => raised (check x)
  | Raise _ => false
  end.

Definition dtype_check_fails (arrays : list ManifestArray) : bool :=
  fails (mapM dtype arrays) _check_same_dtypes.

Definition shape_check_fails (arrays : list ManifestArray) (axis : Z) : bool :=
  fails (mapM shape arrays)
    (fun shapes => _check_same_shapes_except_on_concat_axis shapes axis).

Definition codec_check_fails (arrays : list ManifestArray) : bool :=
  fails (mapM (fun arr => getattr "codec" zarray_codec (zarray arr)) arrays)
    _check_same_codecs.

Definition some_check_fails (arrays : list ManifestArray) (axis : Z) : bool :=
  dtype_check_fails arrays || shape_check_fails arrays axis
  || codec_check_fails arrays.

(** * Properties *)

(** ** Substrings *)

Lemma prefix_append (s rest : string) : String.prefix s (s +:+ rest) = true.
Proof.
  induction s as [|c s IH]; simpl.
  - by destruct rest.
  - destruct (Ascii.ascii_dec c c); [exact IH | done].
Qed.

Lemma prefix_append_r (s h rest : string) :
  String.prefix s h = true → String.prefix s (h +:+ rest) = true.
Proof.
  revert h; induction s as [|c s IH]; intros h Hp.
  - by destruct (h +:+ rest).
  - destruct h as [|d h]; simpl in *; [done|].
    destruct (Ascii.ascii_dec c d); [by apply IH | done].
Qed.

Lemma contains_unfold (s h : string) :
  contains s h =
    String.prefix s h ||
    match h with EmptyString => false | String _ h' => contains s h' end.
Proof. by destruct h. Qed.

Lemma contains_here (s rest : string) : contains s (s +:+ rest) = true.
Proof. by rewrite contains_unfold, prefix_append. Qed.

Lemma contains_append_l (s pre h : string) :
  contains s h = true → contains s (pre +:+ h) = true.
Proof.
  intros Hc. induction pre as [|c pre IH]; simpl; [done|].
  rewrite IH. apply orb_true_r.
Qed.

Lemma contains_append_r (s h rest : string) :
  contains s h = true → contains s (h +:+ rest) = true.
Proof.
  induction h as [|c h IH]; rewrite contains_unfold.
  - rewrite orb_false_r. intros Hp.
    by rewrite contains_unfold, (prefix_append_r _ _ _ Hp).
  - intros [Hp | Hc]%orb_true_iff;
      rewrite (contains_unfold s (String c h +:+ rest)).
    + by rewrite (prefix_append_r _ _ _ Hp).
    + change (String c h +:+ rest) with (String c (h +:+ rest)).
      cbv beta iota. rewrite (IH Hc). apply orb_true_r.
Qed.

Lemma append_empty (s : string) : s +:+ "" = s.
Proof.
  induction s as [|c s IH]; [done|].
  change (String c s +:+ "") with (String c (s +:+ "")). by rewrite IH.
Qed.

Lemma contains_refl (s : string) : contains s s = true.
Proof.
  pose proof (contains_here s "") as Hc. by rewrite append_empty in Hc.
Qed.

Lemma contains_join (sep x : string) (l : list string) :
  x ∈ l → contains x (join sep l) = true.
Proof.
  induction l as [|y l IH]; [by intros ?%elem_of_nil|].
  intros [->|Hin]%elem_of_cons.
  - destruct l; simpl join; [apply contains_refl | apply contains_here].
  - destruct l as [|z l]; [by apply elem_of_nil in Hin|].
    change (join sep (y :: z :: l)) with (y +:+ sep +:+ join sep (z :: l)).
    by apply contains_append_l, contains_append_l, IH.
Qed.

(** ** Stepping through a computation *)

Lemma bind_lift_Ok {A B} (a : A) (f : A → M B) (t : list event) :
  (lift (Ok a) ≫= f) t = f a t.
Proof. done. Qed.

Lemma bind_lift_Raise {A B} (e : exn) (f : A → M B) (t : list event) :
  (lift (Raise e) ≫= f) t = (Raise e, t).
Proof. done. Qed.

Lemma bind_call_Ok {A B} (fn : string) (a : A) (f : A → M B) (t : list event) :
  (call fn (Ok a) ≫= f) t = f a (t ++ [Call fn]).
Proof. done. Qed.

Lemma bind_call_Raise {A B} (fn : string) (e : exn) (f : A → M B) (t : list event) :
  (call fn (Raise e) ≫= f) t = (Raise e, t ++ [Call fn]).
Proof. done. Qed.

Lemma bind_emit {B} (ev : event) (f : () → M B) (t : list event) :
  (emit ev ≫= f) t = f () (t ++ [ev]).
Proof. done. Qed.

Lemma bind_assoc {A B C} (c : M A) (f : A → M B) (g : B → M C) (t : list event) :
  ((c ≫= f) ≫= g) t = (c ≫= fun a => f a ≫= g) t.
Proof. unfold mbind, M_bind. by destruct (c t) as [[a|e] t']. Qed.

Ltac step :=
  match goal with
  | |- context [(lift ?r ≫= _) _] =>
      let H := fresh "Hstep" in
      destruct r eqn:H; rewrite ?bind_lift_Ok, ?bind_lift_Raise
  | |- context [(call _ ?r ≫= _) _] =>
      let H := fresh "Hstep" in
      destruct r eqn:H; rewrite ?bind_call_Ok, ?bind_call_Raise
  end.

Lemma bind_unfold {A B} (c : M A) (f : A → M B) (t : list event) :
  (c ≫= f) t =
    match c t with
    | (Ok a, t') => f a t'
    | (Raise e, t') => (Raise e, t')
    end.
Proof. done. Qed.

Lemma concat_manifests_run (manifests : list ChunkManifest) (axis : Z)
    (t : list event) :
  concat_manifests manifests axis t =
    match concat_manifests_result manifests axis with
    | Ok m => (Ok m, t ++ [Call "concat_manifests"; NewChunkManifest m])
    | Raise e => (Raise e, t ++ [Call "concat_manifests"])
    end.
Proof.
  unfold concat_manifests. rewrite bind_emit.
  destruct (concat_manifests_result manifests axis) as [m|e].
  - rewrite bind_lift_Ok, bind_emit. by rewrite <- app_assoc.
  - by rewrite bind_lift_Raise.
Qed.

Lemma concatenate_after_validators (arrays : list ManifestArray) (axis : Z) :
  concatenate arrays (Some axis) =
    (dtypes ← lift (mapM dtype arrays);
     call "_check_same_dtypes" (_check_same_dtypes dtypes);;
     shapes ← lift (mapM shape arrays);
     call "_check_same_shapes_except_on_concat_axis"
       (_check_same_shapes_except_on_concat_axis shapes axis);;
     codecs ← lift (mapM (fun arr => getattr "codec" zarray_codec (zarray arr)) arrays);
     call "_check_same_codecs" (_check_same_codecs codecs);;
     derive_output arrays axis shapes).
Proof. reflexivity. Qed.

Lemma derive_output_log (arrays : list ManifestArray) (axis : Z)
    (shapes : list (list Z)) (t : list event) :
  ∃ outcome rest,
    derive_output arrays axis shapes t = (outcome, t ++ rest)
    ∧ ∀ r, outcome = Ok r → _zarray r = None.
Proof.
  unfold derive_output.
  step; [|exists (Raise e), []; by rewrite app_nil_r].
  step; [|exists (Raise e), []; by rewrite app_nil_r].
  destruct a0 as [first_shape others].
  step; [|exists (Raise e), []; by rewrite app_nil_r].
  rewrite bind_unfold, concat_manifests_run.
  destruct (concat_manifests_result _ _) as [m|e]; [|by eexists _, _].
  step; [|by eexists _, _].
  rewrite bind_call_Ok. unfold __init__. rewrite bind_emit.
  eexists _, _. split.
  - unfold mret, M_ret. f_equal. rewrite <- !app_assoc. reflexivity.
  - by intros r [= <-].
Qed.

(** A run of [concatenate] with an integer axis either stops at or before
    a validator, having built nothing, or passes the three validators and
    goes on to derive the output. *)
Lemma concatenate_stages (arrays : list ManifestArray) (axis : Z) (t : list event) :
  ∃ outcome new,
    concatenate arrays (Some axis) t = (outcome, t ++ new)
    ∧ ((raised outcome = true ∧ existsb is_construction new = false)
       ∨ (some_check_fails arrays axis = false
          ∧ (∃ rest, new = validator_calls ++ rest)
          ∧ ∀ r, outcome = Ok r → _zarray r = None)).
Proof.
  rewrite concatenate_after_validators.
  unfold some_check_fails, dtype_check_fails, shape_check_fails,
    codec_check_fails, fails.
  step; [|exists (Raise e), []; rewrite app_nil_r; by auto].
  step; [|by eexists _, [_]; auto].
  step; [|by eexists _, [_]; auto].
  step; [|exists (Raise e), [Call "_check_same_dtypes"; Call "_check_same_shapes_except_on_concat_axis"];
          rewrite <- app_assoc; by auto].
  step; [|eexists _, [_; _]; rewrite <- app_assoc; by auto].
  step; [|exists (Raise e), validator_calls; rewrite <- !app_assoc; by auto].
  destruct (derive_output_log arrays axis a1
              (((t ++ [Call "_check_same_dtypes"])
                ++ [Call "_check_same_shapes_except_on_concat_axis"])
                ++ [Call "_check_same_codecs"]))
    as (outcome & rest & Hrun & Hnone).
  exists outcome, (validator_calls ++ rest). split.
  - rewrite Hrun. f_equal. by rewrite <- !app_assoc.
  - right. split; [done|]. split; [by exists rest | done].
Qed.

(** ** Validation comes first *)

(** C2.  For every group of arrays and every integer axis, whatever
    [concatenate] builds is built after the three validators have been
    called and have passed: the log of a run in which a manifest or an
    array is built starts with the dtype, shape and codec checks, in that
    order.  When one of the three checks fails, [concatenate] raises and
    its log holds no manifest and no array.  (The arrays are immutable
    values: the source assigns to no attribute of an input and copies
    every sequence it changes, so no input is modified on any path.) *)
Theorem concatenate_validates_before_building
    (arrays : list ManifestArray) (axis : Z) (t : list event) :
  ∃ outcome new,
    concatenate arrays (Some axis) t = (outcome, t ++ new)
    ∧ (existsb is_construction new = true →
         some_check_fails arrays axis = false
         ∧ ∃ rest, new = validator_calls ++ rest)
    ∧ (some_check_fails arrays axis = true →
         raised outcome = true ∧ existsb is_construction new = false).
Proof.
  destruct (concatenate_stages arrays axis t)
    as (outcome & new & Hrun & [[Hraised Hnone] | (Hpass & Hcalls & _)]);
    exists outcome, new; (split; [exact Hrun|]); split.
  - rewrite Hnone. discriminate.
  - done.
  - done.
  - rewrite Hpass. discriminate.
Qed.

Lemma concatenate_validates_before_building_witness :
  some_check_fails [arr_3x4; arr_5x4_int32] 0 = true
  ∧ ∃ outcome new,
      concatenate [arr_3x4; arr_5x4_int32] (Some 0) [] = (outcome, new)
      ∧ raised outcome = true ∧ existsb is_construction new = false.
Proof.
  split; [vm_compute; reflexivity|].
  destruct (concatenate_validates_before_building [arr_3x4; arr_5x4_int32] 0 [])
    as (outcome & new & Hrun & _ & Hfail).
  exists outcome, new. split; [exact Hrun|].
  apply Hfail. vm_compute. reflexivity.
Defined.

(** ** [axis=None] *)

(** C4.  For every group of arrays, [concatenate] with [axis=None] raises
    [NotImplementedError] and leaves the log as it was: no validator has
    been called and nothing has been built. *)
Theorem concatenate_axis_none (arrays : list ManifestArray) (t : list event) :
  concatenate arrays None t = (Raise (NotImplementedError axis_none_message), t).
Proof. reflexivity. Qed.

(** ** Forbidden operations *)

(** C6.  Conversion into a NumPy array raises [NotImplementedError],
    writing to a store raises [NotImplementedError], and the ufunc hook
    returns [NotImplemented] for every ufunc, method, inputs and keywords;
    none of them builds anything. *)
Theorem forbidden_operations_refuse :
  (∀ self t,
     __array__ self t
       = (Raise (NotImplementedError
            "ManifestArrays can't be converted into numpy arrays or pandas Index objects"), t))
  ∧ (∀ (Store : Type) self (store : Store) t,
       to_zarr self store t
         = (Raise (NotImplementedError
              "Requires the chunk manifest ZEP to be formalized before we know what to write out here."), t))
  ∧ (∀ self ufunc method inputs kwargs t,
       __array_ufunc__ self ufunc method inputs kwargs t = (Ok PyNotImplemented, t)).
Proof.
  repeat split.
Qed.

(** ** Reading back what was wrapped *)

(** C9.  Wrapping a metadata descriptor and a manifest builds one array
    whose [shape], [dtype] and [chunks] properties return the shape, dtype
    and chunk shape of the descriptor and whose [manifest] property
    returns the manifest. *)
Theorem init_then_read_back (z : ZArray) (m : ChunkManifest) (t : list event) :
  ∃ self,
    __init__ (Some z) m t = (Ok self, t ++ [NewManifestArray self])
    ∧ shape self = Ok (zarray_shape z)
    ∧ dtype self = Ok (zarray_dtype z)
    ∧ chunks self = Ok (zarray_chunks z)
    ∧ manifest self = m.
Proof.
  eexists. split; [reflexivity|].
  unfold shape, dtype, chunks, manifest, zarray, np_dtype, py_int; simpl.
  repeat split. f_equal. apply map_id.
Qed.

(** ** What the validators report *)

Lemma for_each_Raise {A} (l : list A) (body : A → result ()) (e : exn) :
  for_each l body = Raise e → ∃ x, x ∈ l ∧ body x = Raise e.
Proof.
  induction l as [|x l IH]; simpl; [done|].
  destruct (body x) as [[]|e'] eqn:Hx; simpl.
  - intros (y & Hy & Hb)%IH. exists y. split; [by apply list_elem_of_further | done].
  - intros [= ->]. exists x. split; [apply list_elem_of_here | done].
Qed.

Lemma for_each_Ok {A} (l : list A) (body : A → result ()) :
  (∀ x, x ∈ l → body x = Ok ()) → for_each l body = Ok ().
Proof.
  induction l as [|x l IH]; intros Hall; simpl; [done|].
  rewrite (Hall x); [|apply list_elem_of_here]. simpl.
  apply IH. intros y Hy. apply Hall. by apply list_elem_of_further.
Qed.

(** A dtype mismatch is a [ValueError] whose message prints both dtypes. *)
Lemma check_same_dtypes_reports (first_dtype : Dtype) (other_dtypes : list Dtype)
    (e : exn) :
  _check_same_dtypes (first_dtype :: other_dtypes) = Raise e →
  ∃ other_dtype,
    other_dtype ∈ other_dtypes ∧ other_dtype ≠ first_dtype
    ∧ class_of e = cValueError
    ∧ contains (str_dtype other_dtype) (message e) = true
    ∧ contains (str_dtype first_dtype) (message e) = true.
Proof.
  unfold _check_same_dtypes; simpl.
  intros (other & Hin & Hbody)%for_each_Raise.
  exists other. case_bool_decide as Hne; [|done].
  injection Hbody as <-. cbn [message class_of]. repeat split; try done.
  - apply contains_append_l, contains_here.
  - apply contains_append_l, contains_append_l, contains_append_l, contains_refl.
Qed.

(** An off-axis shape mismatch is a [ValueError] whose message prints every
    shape of the group. *)
Lemma check_same_shapes_reports (shapes : list (list Z)) (axis : Z) (e : exn) :
  shapes ≠ [] →
  (∀ s, s ∈ shapes → 0 <= axis < Z.of_nat (length s)) →
  _check_same_shapes_except_on_concat_axis shapes axis = Raise e →
  class_of e = cValueError
  ∧ ∀ s, s ∈ shapes → contains (repr_tuple s) (message e) = true.
Proof.
  intros Hne Haxis. unfold _check_same_shapes_except_on_concat_axis.
  destruct (mapM _ shapes) as [without|e'] eqn:Hmap; simpl.
  - destruct without as [|first_shape other_shapes]; simpl.
    + destruct shapes as [|s shapes]; [done|]. simpl in Hmap.
      destruct (_remove_element_at_position s axis); simpl in Hmap; [|done].
      destruct (mapM _ shapes); simpl in Hmap; done.
    + intros (other & _ & Hbody)%for_each_Raise.
      case_bool_decide; [|done]. injection Hbody as <-. cbn [message class_of].
      split; [done|]. intros s Hs.
      apply contains_append_l. unfold repr_list_of_tuples.
      apply contains_append_l, contains_append_r, contains_join.
      apply list_elem_of_fmap. by exists s.
  - intros [= ->]. exfalso.
    revert e Hmap. induction shapes as [|s shapes IH]; intros e Hmap; [done|].
    simpl in Hmap.
    destruct (_remove_element_at_position s axis) as [s'|e1] eqn:Hs; simpl in Hmap.
    + destruct (mapM _ shapes) as [l|e2] eqn:Hl; simpl in Hmap; [done|].
      destruct shapes as [|s2 shapes]; [done|].
      apply (IH ltac:(done) ltac:(intros; apply Haxis; by apply list_elem_of_further) e2).
      done.
    + specialize (Haxis s (list_elem_of_here _ _)).
      unfold _remove_element_at_position, list_pop, normalize_index in Hs.
      destruct s as [|x s]; [simpl in Haxis; lia|].
      rewrite bool_decide_true in Hs by done. done.
Qed.

(** A codec mismatch is a [NotImplementedError] whose message prints both
    codecs. *)
Lemma check_same_codecs_reports (first_codec : Codec) (other_codecs : list Codec)
    (e : exn) :
  _check_same_codecs (first_codec :: other_codecs) = Raise e →
  ∃ codec,
    codec ∈ other_codecs ∧ codec ≠ first_codec
    ∧ class_of e = cNotImplementedError
    ∧ contains (str_codec first_codec) (message e) = true
    ∧ contains (str_codec codec) (message e) = true.
Proof.
  unfold _check_same_codecs; simpl.
  intros (codec & Hin & Hbody)%for_each_Raise.
  exists codec. case_bool_decide as Hne; [|done].
  injection Hbody as <-. cbn [message class_of]. repeat split; try done.
  - apply contains_append_l, contains_append_l, contains_here.
  - do 4 apply contains_append_l. apply contains_here.
Qed.

(** ** The output of [concatenate] *)

(** Whatever the arrays and the axis, an array returned by [concatenate]
    has [None] for metadata, so that reading its [shape] raises. *)
Lemma concatenate_returns_no_metadata (arrays : list ManifestArray)
    (axis : option Z) (t t' : list event) (r : ManifestArray) :
  concatenate arrays axis t = (Ok r, t') →
  _zarray r = None
  ∧ shape r = Raise (AttributeError "'NoneType' object has no attribute 'shape'").
Proof.
  destruct axis as [axis|]; [|done].
  destruct (concatenate_stages arrays axis t)
    as (outcome & new & Hrun & [[Hraised _] | (_ & _ & Hnone)]);
    rewrite Hrun; intros [= -> _]; [done|].
  pose proof (Hnone r eq_refl) as Hz.
  split; [done|]. unfold shape, zarray. by rewrite Hz.
Qed.

(** C1.  Concatenating the arrays of shapes [(3, 4)] and [(5, 4)] on axis
    0 passes the validators and returns an array whose manifest has grid
    shape [(2, 1)] and holds the two original byte ranges at [(0, 0)] and
    [(1, 0)], but whose metadata is [None]: its [shape] is not [(8, 4)],
    reading it raises [AttributeError], and so do [dtype] and [chunks]. *)
Theorem concatenate_3x4_5x4_loses_metadata :
  ∃ r new,
    concatenate [arr_3x4; arr_5x4] (Some 0) [] = (Ok r, new)
    ∧ grid_shape (manifest r) = [2; 1]
    ∧ entries (manifest r) !! [0; 0] = entries (manifest arr_3x4) !! [0; 0]
    ∧ entries (manifest r) !! [1; 0] = entries (manifest arr_5x4) !! [0; 0]
    ∧ base.size (entries (manifest r)) = 2%nat
    ∧ zarray r = None
    ∧ shape r ≠ Ok [8; 4]
    ∧ shape r = Raise (AttributeError "'NoneType' object has no attribute 'shape'")
    ∧ dtype r = Raise (AttributeError "'NoneType' object has no attribute 'dtype'")
    ∧ chunks r = Raise (AttributeError "'NoneType' object has no attribute 'chunks'").
Proof.
  eexists _, _. split; [vm_compute; reflexivity|].
  repeat split; try (vm_compute; reflexivity).
  vm_compute. discriminate.
Qed.

(** ** [result_type] *)

(** Whenever [result_type] raises [ValueError] on a non-empty group, the
    message is the same fixed text. *)
Lemma result_type_fixed_message (objs : list array_or_dtype) (msg : string) :
  objs ≠ [] →
  result_type objs = Raise (ValueError msg) →
  msg = "dtypes not all consistent".
Proof.
  intros Hne. unfold result_type.
  destruct (mapM np_dtype_of objs) as [ds|e] eqn:Hmap; simpl.
  - destruct ds as [|d ds]; simpl.
    + destruct objs as [|o objs]; [done|]. simpl in Hmap.
      destruct (np_dtype_of o); simpl in Hmap; [|done].
      destruct (mapM _ objs); simpl in Hmap; done.
    + destruct (for_each ds _) as [[]|e] eqn:Hloop; simpl; [done|].
      apply for_each_Raise in Hloop as (other & _ & Hbody).
      case_bool_decide; [|done]. injection Hbody as <-. by intros [= <-].
  - intros [= ->]. exfalso.
    revert Hmap. clear Hne. revert msg.
    induction objs as [|o objs IH]; intros msg; simpl; [done|].
    destruct (np_dtype_of o) as [d|e] eqn:Ho; simpl.
    + destruct (mapM _ objs) as [l|e2] eqn:Hl; simpl; [done|].
      intros [= ->]. by eapply IH.
    + intros [= ->]. destruct o as [a|d]; [|done].
      unfold np_dtype_of, dtype, getattr in Ho. by destruct (zarray a).
Qed.

(** C3.  On the dtypes [float64] and [int32], [result_type] raises a
    [ValueError] whose message is ["dtypes not all consistent"]: it names
    neither dtype, whereas the dtype validator prints both on the same
    pair. *)
Theorem result_type_message_omits_dtypes :
  result_type [a_dtype float64; a_dtype int32]
    = Raise (ValueError "dtypes not all consistent")
  ∧ contains (str_dtype float64) "dtypes not all consistent" = false
  ∧ contains (str_dtype int32) "dtypes not all consistent" = false
  ∧ _check_same_dtypes [float64; int32]
    = Raise (ValueError
        "Cannot concatenate arrays with inconsistent dtypes: int32 vs float64").
Proof. repeat split; vm_compute; reflexivity. Qed.

(** ** Codec mismatch *)

Lemma list_pop_valid {A} (l : list A) (i : Z) :
  0 <= i < Z.of_nat (length l) → list_pop l i = Ok (delete (Z.to_nat i) l).
Proof.
  intros Hi. unfold list_pop, normalize_index.
  destruct l as [|x l]; [simpl in Hi; lia|].
  by rewrite bool_decide_true.
Qed.

Lemma check_same_shapes_pair (sa sb : list Z) (axis : Z) :
  0 <= axis < Z.of_nat (length sa) →
  0 <= axis < Z.of_nat (length sb) →
  delete (Z.to_nat axis) sa = delete (Z.to_nat axis) sb →
  _check_same_shapes_except_on_concat_axis [sa; sb] axis = Ok ().
Proof.
  intros Ha Hb Heq. unfold _check_same_shapes_except_on_concat_axis.
  cbn [mapM]. unfold _remove_element_at_position.
  rewrite !list_pop_valid by done. rewrite Heq. cbn.
  by rewrite bool_decide_false by (intros Hne; by apply Hne).
Qed.

(** C7 (amended).  For any two arrays with equal dtypes and equal off-axis
    shapes but unequal codecs, [concatenate] stops at the codec validator,
    having built nothing, with a [NotImplementedError] whose message
    prints both codecs.  That is the exception class of the unsupported
    operations, not the [ValueError] of dtype and shape mismatches. *)
Theorem codec_mismatch_is_not_implemented
    (a b : ManifestArray) (za zb : ZArray) (axis : Z) (t : list event) :
  _zarray a = Some za →
  _zarray b = Some zb →
  zarray_dtype za = zarray_dtype zb →
  0 <= axis < Z.of_nat (length (zarray_shape za)) →
  0 <= axis < Z.of_nat (length (zarray_shape zb)) →
  delete (Z.to_nat axis) (zarray_shape za) = delete (Z.to_nat axis) (zarray_shape zb) →
  zarray_codec za ≠ zarray_codec zb →
  ∃ msg,
    concatenate [a; b] (Some axis) t
      = (Raise (NotImplementedError msg), t ++ validator_calls)
    ∧ contains (str_codec (zarray_codec za)) msg = true
    ∧ contains (str_codec (zarray_codec zb)) msg = true
    ∧ class_of (NotImplementedError msg) ≠ cValueError.
Proof.
  intros Hza Hzb Hdtype Ha Hb Hshape Hcodec.
  rewrite concatenate_after_validators.
  assert (mapM dtype [a; b] = Ok [zarray_dtype za; zarray_dtype zb]) as ->.
  { cbn [mapM]. unfold dtype, zarray. by rewrite Hza, Hzb. }
  rewrite bind_lift_Ok.
  assert (_check_same_dtypes [zarray_dtype za; zarray_dtype zb] = Ok ()) as ->.
  { rewrite Hdtype. unfold _check_same_dtypes. cbn.
    by rewrite bool_decide_false by (intros Hne; by apply Hne). }
  rewrite bind_call_Ok.
  assert (mapM shape [a; b] = Ok [zarray_shape za; zarray_shape zb]) as ->.
  { cbn [mapM]. unfold shape, zarray, py_int. rewrite Hza, Hzb. cbn.
    by rewrite !map_id. }
  rewrite bind_lift_Ok, check_same_shapes_pair, bind_call_Ok by done.
  assert (mapM (fun arr => getattr "codec" zarray_codec (zarray arr)) [a; b]
          = Ok [zarray_codec za; zarray_codec zb]) as ->.
  { cbn [mapM]. unfold zarray. by rewrite Hza, Hzb. }
  rewrite bind_lift_Ok.
  destruct (_check_same_codecs [zarray_codec za; zarray_codec zb])
    as [[]|e] eqn:Hcheck.
  - exfalso. unfold _check_same_codecs in Hcheck. cbn in Hcheck.
    rewrite bool_decide_true in Hcheck by (intros Heq; by apply Hcodec).
    done.
  - rewrite bind_call_Raise.
    apply check_same_codecs_reports in Hcheck
      as (codec & ->%list_elem_of_singleton & _ & Hclass & Hfirst & Hother).
    destruct e as [msg| | | | | ]; try done.
    exists msg. split; [by rewrite <- !app_assoc|]. done.
Qed.

Lemma codec_mismatch_is_not_implemented_witness :
  zlib ≠ blosc
  ∧ ∃ msg,
      concatenate [arr_3x4; arr_5x4_blosc] (Some 0) []
        = (Raise (NotImplementedError msg), [] ++ validator_calls)
      ∧ contains (str_codec zlib) msg = true
      ∧ contains (str_codec blosc) msg = true
      ∧ class_of (NotImplementedError msg) ≠ cValueError.
Proof.
  split; [discriminate|].
  apply (codec_mismatch_is_not_implemented arr_3x4 arr_5x4_blosc
           {| zarray_shape := [3; 4]; zarray_chunks := [3; 4];
              zarray_dtype := float64; zarray_codec := zlib |}
           {| zarray_shape := [5; 4]; zarray_chunks := [5; 4];
              zarray_dtype := float64; zarray_codec := blosc |}
           0 []).
  - reflexivity.
  - reflexivity.
  - reflexivity.
  - simpl; lia.
  - simpl; lia.
  - reflexivity.
  - discriminate.
Defined.

(** C7 (as stated, refuted).  The arrays of shapes [(3, 4)] and [(5, 4)]
    have the same dtype and the same off-axis shape and differ in codec;
    the exception that [concatenate] raises on them does not have the
    class of the dtype-mismatch and shape-mismatch failures, and it has
    the class that dense conversion raises. *)
Lemma codec_mismatch_class_counterexample :
  dtype arr_3x4 = dtype arr_5x4_blosc
  ∧ _check_same_shapes_except_on_concat_axis [[3; 4]; [5; 4]] 0 = Ok ()
  ∧ zarray_codec <$> zarray arr_3x4 ≠ zarray_codec <$> zarray arr_5x4_blosc
  ∧ ¬ ∃ e e_dtype e_shape e_dense,
        (run (concatenate [arr_3x4; arr_5x4_blosc] (Some 0))).1 = Raise e
        ∧ (run (concatenate [arr_3x4; arr_5x4_int32] (Some 0))).1 = Raise e_dtype
        ∧ (run (concatenate [arr_3x4; arr_5x7] (Some 0))).1 = Raise e_shape
        ∧ (run (__array__ arr_3x4)).1 = Raise e_dense
        ∧ class_of e = class_of e_dtype
        ∧ class_of e = class_of e_shape
        ∧ class_of e ≠ class_of e_dense.
Proof.
  split; [reflexivity|]. split; [vm_compute; reflexivity|].
  split; [discriminate|].
  intros (e & e_dtype & e_shape & e_dense & He & Hd & Hs & Hn & Hcd & _ & _).
  vm_compute in He, Hd. injection He as <-. injection Hd as <-.
  discriminate Hcd.
Qed.

(** ** [size] *)

Lemma wrap64_mod (z : Z) : wrap64 z mod 2 ^ 64 = z mod 2 ^ 64.
Proof.
  unfold wrap64. rewrite Zminus_mod_idemp_l. f_equal. lia.
Qed.

Lemma wrap64_congr (a b : Z) :
  a mod 2 ^ 64 = b mod 2 ^ 64 → wrap64 a = wrap64 b.
Proof.
  intros Hab. unfold wrap64.
  by rewrite (Zplus_mod a), Hab, <- Zplus_mod.
Qed.

Lemma wrap64_fits (z : Z) : int64_min <= z <= int64_max → wrap64 z = z.
Proof.
  unfold int64_min, int64_max, wrap64. intros Hz.
  rewrite Z.mod_small; lia.
Qed.

Lemma mul64_wrap64_l (a b : Z) : mul64 (wrap64 a) b = wrap64 (a * b).
Proof.
  unfold mul64. apply wrap64_congr.
  by rewrite Zmult_mod, wrap64_mod, <- Zmult_mod.
Qed.

Lemma foldl_mul64 (t : list Z) (a : Z) :
  foldl mul64 (wrap64 a) t = wrap64 (a * product t).
Proof.
  revert a. induction t as [|x t IH]; intros a; simpl.
  - by rewrite Z.mul_1_r.
  - by rewrite mul64_wrap64_l, IH, Z.mul_assoc.
Qed.

(** C8 (amended).  For an array whose shape is not empty and whose entries
    fit in a signed 64-bit integer, [size] is the product of the entries
    reduced modulo [2^64] into the signed 64-bit range; it is the exact
    product whenever that product itself fits in 64 bits, in particular
    when it exceeds the 32-bit range. *)
Theorem size_is_product_in_int64 (self : ManifestArray) (z : ZArray) :
  _zarray self = Some z →
  zarray_shape z ≠ [] →
  Forall (fun n => int64_min <= n <= int64_max) (zarray_shape z) →
  size self = Ok (np_int64 (wrap64 (product (zarray_shape z))))
  ∧ (int64_min <= product (zarray_shape z) <= int64_max →
       size self = Ok (np_int64 (product (zarray_shape z)))).
Proof.
  intros Hz Hne Hfits.
  assert (size self = Ok (np_int64 (wrap64 (product (zarray_shape z))))) as Hsize.
  { unfold size, shape, zarray, py_int. rewrite Hz. cbn. rewrite map_id.
    unfold np_prod. destruct (zarray_shape z) as [|x t] eqn:Hs; [done|].
    assert (forallb fits_int64 (x :: t) = true) as ->.
    { clear -Hfits. induction Hfits as [|y l Hy _ IH]; [done|].
      cbn [forallb]. rewrite IH. unfold fits_int64.
      by rewrite bool_decide_true. }
    do 2 f_equal.
    rewrite <- (wrap64_fits 1) at 1 by (unfold int64_min, int64_max; lia).
    rewrite foldl_mul64. f_equal. lia. }
  split; [done|]. intros Hexact. by rewrite Hsize, wrap64_fits.
Qed.

Lemma size_is_product_in_int64_witness :
  2 ^ 32 < product [2 ^ 20; 2 ^ 20]
  ∧ size (make_array "a.nc" [2 ^ 20; 2 ^ 20] float64 zlib)
    = Ok (np_int64 (product [2 ^ 20; 2 ^ 20])).
Proof.
  split; [vm_compute; reflexivity|].
  apply (size_is_product_in_int64
           (make_array "a.nc" [2 ^ 20; 2 ^ 20] float64 zlib)
           {| zarray_shape := [2 ^ 20; 2 ^ 20]; zarray_chunks := [2 ^ 20; 2 ^ 20];
              zarray_dtype := float64; zarray_codec := zlib |}).
  - reflexivity.
  - discriminate.
  - repeat constructor; vm_compute; discriminate.
  - split; vm_compute; discriminate.
Defined.

(** C8 (as stated, refuted).  For the shape [(2^32, 2^32)] the product of
    the entries is [2^64], and [size] returns the 64-bit integer 0. *)
Lemma size_overflow_counterexample :
  product [2 ^ 32; 2 ^ 32] = 2 ^ 64
  ∧ size (make_array "a.nc" [2 ^ 32; 2 ^ 32] float64 zlib) = Ok (np_int64 0)
  ∧ size (make_array "a.nc" [2 ^ 32; 2 ^ 32] float64 zlib)
    ≠ Ok (np_int64 (product [2 ^ 32; 2 ^ 32])).
Proof.
  split; [reflexivity|]. split; [vm_compute; reflexivity|].
  vm_compute. discriminate.
Qed.

(** ** The dispatch hook *)

(** The registry holds exactly the two decorated functions. *)
Lemma registry_lookup (func : string) :
  HANDLED_ARRAY_FUNCTIONS !! func =
    if decide (func = np_result_type) then Some result_type_callable
    else if decide (func = np_concatenate) then Some concatenate_callable
    else None.
Proof.
  unfold HANDLED_ARRAY_FUNCTIONS, implements.
  destruct (decide (func = np_result_type)) as [->|Hr].
  - by rewrite lookup_insert_eq.
  - rewrite lookup_insert_ne by done.
    destruct (decide (func = np_concatenate)) as [->|Hc].
    + by rewrite lookup_insert_eq.
    + by rewrite lookup_insert_ne.
Qed.

Lemma forallb_false_of_member {A} (f : A → bool) (l : list A) (x : A) :
  x ∈ l → f x = false → forallb f l = false.
Proof.
  induction l as [|y l IH]; [by intros ?%elem_of_nil|].
  intros [->|Hin]%elem_of_cons Hx; simpl.
  - by rewrite Hx.
  - rewrite IH by done. apply andb_false_r.
Qed.

Lemma forallb_true_of_all {A} (f : A → bool) (l : list A) :
  (∀ x, x ∈ l → f x = true) → forallb f l = true.
Proof.
  induction l as [|y l IH]; intros Hall; simpl; [done|].
  rewrite Hall by apply list_elem_of_here.
  apply IH. intros x Hx. apply Hall. by apply list_elem_of_further.
Qed.

(** C5.  When the requested function is not registered, or when one of the
    operand types is not a subclass of [ManifestArray], the hook returns
    [NotImplemented] and raises nothing; otherwise it calls the registered
    implementation with the positional and keyword arguments and returns
    what that call returns. *)
Theorem array_function_dispatch (self : ManifestArray) (func : string)
    (types : list pyclass) (args : list pyval) (kwargs : gmap string pyval) :
  (HANDLED_ARRAY_FUNCTIONS !! func = None
   ∨ (∃ c, c ∈ types ∧ issubclass c ManifestArray_class = false) →
     ∀ t, __array_function__ self func types args kwargs t = (Ok PyNotImplemented, t))
  ∧ (∀ implementation,
       HANDLED_ARRAY_FUNCTIONS !! func = Some implementation →
       (∀ c, c ∈ types → issubclass c ManifestArray_class = true) →
       __array_function__ self func types args kwargs = implementation args kwargs).
Proof.
  unfold __array_function__. split.
  - intros [Hnone | (c & Hc & Hsub)] t.
    + rewrite Hnone. by rewrite bool_decide_false by (by intros [? ?]).
    + rewrite (forallb_false_of_member _ _ c Hc Hsub). cbn.
      by destruct (negb _).
  - intros implementation Hsome Hall.
    rewrite Hsome, (forallb_true_of_all _ _ Hall).
    by rewrite bool_decide_true by (by eexists).
Qed.

Lemma array_function_dispatch_witness :
  (∀ t, __array_function__ arr_3x4 "numpy.transpose" [ManifestArray_class]
          [PyArray arr_3x4] ∅ t = (Ok PyNotImplemented, t))
  ∧ __array_function__ arr_3x4 np_concatenate [ManifestArray_class]
      [PySeq [PyArray arr_3x4; PyArray arr_5x4]] ∅
    = concatenate_callable [PySeq [PyArray arr_3x4; PyArray arr_5x4]] ∅.
Proof.
  split.
  - apply (array_function_dispatch arr_3x4 "numpy.transpose" [ManifestArray_class]
             [PyArray arr_3x4] ∅).
    left. rewrite registry_lookup. reflexivity.
  - apply (array_function_dispatch arr_3x4 np_concatenate [ManifestArray_class]
             [PySeq [PyArray arr_3x4; PyArray arr_5x4]] ∅).
    + rewrite registry_lookup. reflexivity.
    + intros c ->%list_elem_of_singleton. reflexivity.
Defined.

(** ** The default axis *)

Lemma as_arrays_of_arrays (arrays : list ManifestArray) :
  as_arrays (PySeq (PyArray <$> arrays)) = Some arrays.
Proof.
  unfold as_arrays. induction arrays as [|a arrays IH]; [done|].
  cbn. by rewrite IH.
Qed.

(** C10.  Called with a group of arrays and no [axis] keyword,
    [concatenate] runs with axis 0: the call is the call with [axis=0]. *)
Theorem concatenate_axis_defaults_to_zero (arrays : list ManifestArray) :
  concatenate_callable [PySeq (PyArray <$> arrays)] ∅
    = (PyArray <$> concatenate arrays (Some 0))
  ∧ concatenate_callable [PySeq (PyArray <$> arrays)] ∅
    = concatenate_callable [PySeq (PyArray <$> arrays)] {[ "axis" := PyInt 0 ]}.
Proof.
  assert (∀ kwargs : gmap string pyval,
            delete "axis" kwargs = ∅ →
            default (PyInt 0) (kwargs !! "axis") = PyInt 0 →
            concatenate_callable [PySeq (PyArray <$> arrays)] kwargs
              = (PyArray <$> concatenate arrays (Some 0))) as Hcall.
  { intros kwargs Hdel Haxis. unfold concatenate_callable.
    rewrite bool_decide_true by done.
    by rewrite Haxis, as_arrays_of_arrays. }
  split.
  - apply Hcall; [apply delete_empty | done].
  - rewrite !Hcall; [done | | | apply delete_empty | done].
    + apply delete_singleton_eq.
    + by rewrite lookup_singleton_eq.
Qed.

(** * Further properties of the module *)

(** ** Lists of outcomes *)

Lemma mapM_Ok_inv {A B} (f : A → result B) (l : list A) (ys : list B) :
  mapM f l = Ok ys → Forall2 (fun x y => f x = Ok y) l ys.
Proof.
  revert ys. induction l as [|x l IH]; intros ys; cbn [mapM].
  - intros [= <-]. constructor.
  - destruct (f x) as [y|e] eqn:Hx; cbn; [|done].
    destruct (mapM f l) as [k|e] eqn:Hl; cbn; [|done].
    intros [= <-]. constructor; [done | by apply IH].
Qed.

Lemma mapM_Ok_all {A B} (f : A → result B) (g : A → B) (l : list A) :
  (∀ x, x ∈ l → f x = Ok (g x)) → mapM f l = Ok (g <$> l).
Proof.
  induction l as [|x l IH]; intros Hall; cbn [mapM]; [done|].
  rewrite (Hall x) by apply list_elem_of_here. cbn.
  rewrite IH by (intros y Hy; apply Hall; by apply list_elem_of_further).
  done.
Qed.



Lemma for_each_Ok_inv {A} (l : list A) (body : A → result ()) :
  for_each l body = Ok () → ∀ x, x ∈ l → body x = Ok ().
Proof.
  induction l as [|y l IH]; simpl; [by intros _ x ?%elem_of_nil|].
  destruct (body y) as [[]|e] eqn:Hy; simpl; [|done].
  intros Hl x [->|Hin]%elem_of_cons; [done | by apply IH].
Qed.

Lemma for_each_first_failure {A} (pre post : list A) (x : A)
    (body : A → result ()) :
  (∀ y, y ∈ pre → body y = Ok ()) →
  for_each (pre ++ x :: post) body = (body x;; for_each post body).
Proof.
  induction pre as [|y pre IH]; intros Hpre; [done|].
  simpl. rewrite (Hpre y) by apply list_elem_of_here. simpl.
  apply IH. intros z Hz. apply Hpre. by apply list_elem_of_further.
Qed.

(** ** When the validators pass *)

(** X1.  On a non-empty list of dtypes the dtype validator passes exactly
    when every later dtype equals the first. *)
Theorem check_same_dtypes_passes_iff (first_dtype : Dtype) (other_dtypes : list Dtype) :
  _check_same_dtypes (first_dtype :: other_dtypes) = Ok ()
  ↔ ∀ d, d ∈ other_dtypes → d = first_dtype.
Proof.
  unfold _check_same_dtypes; simpl. split.
  - intros Hloop d Hd. apply (for_each_Ok_inv _ _ Hloop) in Hd.
    case_bool_decide as Hne; done.
  - intros Hall. apply for_each_Ok. intros d Hd.
    by rewrite bool_decide_false by (intros Hne; by apply Hne, Hall).
Qed.

(** X2.  The dtype validator stops at the first dtype that differs from
    the first one, and its message prints that dtype and the first one,
    whatever follows. *)
Theorem check_same_dtypes_first_offender
    (first_dtype offender : Dtype) (same rest : list Dtype) :
  (∀ d, d ∈ same → d = first_dtype) →
  offender ≠ first_dtype →
  _check_same_dtypes (first_dtype :: same ++ offender :: rest)
    = Raise (ValueError
        ("Cannot concatenate arrays with inconsistent dtypes: "
         +:+ str_dtype offender +:+ " vs " +:+ str_dtype first_dtype)).
Proof.
  intros Hsame Hne. unfold _check_same_dtypes; simpl.
  rewrite for_each_first_failure.
  - by rewrite bool_decide_true.
  - intros d Hd. by rewrite bool_decide_false by (intros Hd'; by apply Hd', Hsame).
Qed.

Lemma check_same_dtypes_first_offender_witness :
  int32 ≠ float64
  ∧ _check_same_dtypes (float64 :: [float64] ++ int32 :: [float64; int32])
    = Raise (ValueError
        ("Cannot concatenate arrays with inconsistent dtypes: "
         +:+ str_dtype int32 +:+ " vs " +:+ str_dtype float64)).
Proof.
  split; [discriminate|].
  apply (check_same_dtypes_first_offender float64 int32 [float64] [float64; int32]).
  - intros d ->%list_elem_of_singleton. reflexivity.
  - discriminate.
Defined.

(** X3.  On a non-empty list of codecs the codec validator passes exactly
    when every later codec equals the first. *)
Theorem check_same_codecs_passes_iff (first_codec : Codec) (other_codecs : list Codec) :
  _check_same_codecs (first_codec :: other_codecs) = Ok ()
  ↔ ∀ c, c ∈ other_codecs → c = first_codec.
Proof.
  unfold _check_same_codecs; simpl. split.
  - intros Hloop c Hc. apply (for_each_Ok_inv _ _ Hloop) in Hc.
    case_bool_decide as Hne; done.
  - intros Hall. apply for_each_Ok. intros c Hc.
    by rewrite bool_decide_false by (intros Hne; by apply Hne, Hall).
Qed.

(** ** Removing the concatenation axis *)

Lemma normalize_index_Some (n : nat) (i : Z) (k : nat) :
  normalize_index n i = Some k ↔
    (- Z.of_nat n <= i < Z.of_nat n) ∧ k = Z.to_nat (i mod Z.of_nat n).
Proof.
  unfold normalize_index. repeat case_bool_decide; split.
  - intros [= <-]. split; [lia|]. by rewrite Z.mod_small.
  - intros [_ ->]. by rewrite Z.mod_small.
  - intros [= <-]. split; [lia|]. f_equal.
    rewrite <- (Z.mod_add i 1) by lia. rewrite Z.mod_small; lia.
  - intros [_ ->]. f_equal.
    rewrite <- (Z.mod_add i 1) by lia. rewrite Z.mod_small; lia.
  - done.
  - intros [? _]. lia.
Qed.


Lemma normalize_index_lt (n : nat) (i : Z) (k : nat) :
  normalize_index n i = Some k → (k < n)%nat.
Proof.
  intros [Hi ->]%normalize_index_Some.
  assert (0 <= i mod Z.of_nat n < Z.of_nat n) by (apply Z.mod_pos_bound; lia).
  lia.
Qed.



(** ** The shape validator *)

Lemma delete_eq_iff {A} (k : nat) (a b : list A) :
  (k < length a)%nat → (k < length b)%nat →
  delete k a = delete k b
  ↔ length a = length b ∧ ∀ i, i ≠ k → a !! i = b !! i.
Proof.
  intros Ha Hb. split.
  - intros Heq. split.
    + assert (length (delete k a) = length (delete k b)) as Hlen by by rewrite Heq.
      rewrite !length_delete in Hlen by (by apply lookup_lt_is_Some). lia.
    + intros i Hi. destruct (decide (i < k)%nat) as [Hlt|Hge].
      * by rewrite <- (list_lookup_delete_lt a k i), Heq, list_lookup_delete_lt.
      * destruct i as [|i]; [lia|].
        rewrite <- (list_lookup_delete_ge a k i) by lia.
        rewrite Heq. apply list_lookup_delete_ge. lia.
  - intros [Hlen Hsame]. apply list_eq. intros i.
    rewrite !list_lookup_delete. case_decide; apply Hsame; lia.
Qed.

Lemma remove_all_valid (shapes : list (list Z)) (axis : Z) :
  0 <= axis →
  (∀ s, s ∈ shapes → axis < Z.of_nat (length s)) →
  mapM (fun shape => _remove_element_at_position shape axis) shapes
    = Ok (delete (Z.to_nat axis) <$> shapes).
Proof.
  intros Hpos Hvalid. apply mapM_Ok_all. intros s Hs.
  unfold _remove_element_at_position. apply list_pop_valid.
  split; [done | by apply Hvalid].
Qed.

(** X4.  For a non-negative axis that is within every shape of a non-empty
    group, the shape validator passes exactly when every later shape has
    the rank of the first and agrees with it at every position other than
    the axis; the lengths along the axis are not compared. *)
Theorem check_same_shapes_passes_iff
    (first_shape : list Z) (other_shapes : list (list Z)) (axis : Z) :
  0 <= axis →
  (∀ s, s ∈ first_shape :: other_shapes → axis < Z.of_nat (length s)) →
  _check_same_shapes_except_on_concat_axis (first_shape :: other_shapes) axis = Ok ()
  ↔ ∀ s, s ∈ other_shapes →
      length s = length first_shape
      ∧ ∀ i, i ≠ Z.to_nat axis → s !! i = first_shape !! i.
Proof.
  intros Hpos Hvalid. unfold _check_same_shapes_except_on_concat_axis.
  rewrite remove_all_valid by done. cbn.
  assert (∀ s, s ∈ first_shape :: other_shapes →
            (Z.to_nat axis < length s)%nat) as Hlt.
  { intros s Hs. specialize (Hvalid s Hs). lia. }
  split.
  - intros Hloop s Hs.
    apply delete_eq_iff;
      [apply Hlt; by apply list_elem_of_further | apply Hlt, list_elem_of_here |].
    assert (delete (Z.to_nat axis) s ∈ delete (Z.to_nat axis) <$> other_shapes) as Hin
      by (apply list_elem_of_fmap; by exists s).
    apply (for_each_Ok_inv _ _ Hloop) in Hin. by case_bool_decide.
  - intros Hall. apply for_each_Ok.
    intros d (s & -> & Hs)%list_elem_of_fmap.
    rewrite bool_decide_false; [done|]. intros Hne. apply Hne.
    apply delete_eq_iff;
      [apply Hlt; by apply list_elem_of_further | apply Hlt, list_elem_of_here |].
    by apply Hall.
Qed.

Lemma check_same_shapes_passes_iff_witness :
  _check_same_shapes_except_on_concat_axis [[3; 4]; [5; 4]] 0 = Ok ().
Proof.
  apply (check_same_shapes_passes_iff [3; 4] [[5; 4]] 0).
  - lia.
  - intros s Hs. repeat (apply elem_of_cons in Hs as [->|Hs]; [simpl; lia|]).
    by apply elem_of_nil in Hs.
  - intros s ->%list_elem_of_singleton. split; [reflexivity|].
    intros [|[|i]] Hi; [done | reflexivity | reflexivity].
Defined.



(** ** The empty group *)

(** X7.  An empty group is not detected as such: the three validators and
    [result_type] fail on it in the unpacking [first, *others = ...], with
    the [ValueError] of that statement, and [concatenate] on an empty
    group raises that error from the dtype validator, whatever the axis. *)
Theorem empty_group_is_rejected :
  let unpacking :=
    ValueError "not enough values to unpack (expected at least 1, got 0)" in
  _check_same_dtypes [] = Raise unpacking
  ∧ _check_same_codecs [] = Raise unpacking
  ∧ (∀ axis, _check_same_shapes_except_on_concat_axis [] axis = Raise unpacking)
  ∧ result_type [] = Raise unpacking
  ∧ ∀ axis t,
      concatenate [] (Some axis) t
        = (Raise unpacking, t ++ [Call "_check_same_dtypes"]).
Proof. repeat split. Qed.

(** ** [result_type] and the dtype validator *)

Lemma Forall2_member_l {A B} (P : A → B → Prop) (l : list A) (k : list B) (x : A) :
  Forall2 P l k → x ∈ l → ∃ y, y ∈ k ∧ P x y.
Proof.
  induction 1 as [|x' y' l k Hxy _ IH]; [by intros ?%elem_of_nil|].
  intros [->|Hin]%elem_of_cons.
  - exists y'. split; [apply list_elem_of_here | done].
  - destruct (IH Hin) as (y & Hy & HP).
    exists y. split; [by apply list_elem_of_further | done].
Qed.

(** X8.  [result_type] returns a dtype exactly when its group is not empty
    and every member resolves to that dtype; the dtype it returns is the
    first member's. *)
Theorem result_type_ok_iff (objs : list array_or_dtype) (d : Dtype) :
  result_type objs = Ok d
  ↔ ∃ first others,
      objs = first :: others
      ∧ np_dtype_of first = Ok d
      ∧ ∀ o, o ∈ others → np_dtype_of o = Ok d.
Proof.
  unfold result_type. split.
  - destruct (mapM np_dtype_of objs) as [ds|e] eqn:Hmap; cbn; [|done].
    apply mapM_Ok_inv in Hmap.
    destruct Hmap as [|first d0 others ds Hfirst Hothers]; cbn; [done|].
    destruct (for_each ds _) as [[]|e] eqn:Hloop; cbn; [|done].
    intros [= ->]. exists first, others. split; [done|]. split; [done|].
    intros o Ho. destruct (Forall2_member_l _ _ _ _ Hothers Ho) as (y & Hy & Hoy).
    apply (for_each_Ok_inv _ _ Hloop) in Hy. by case_bool_decide; subst.
  - intros (first & others & -> & Hfirst & Hothers).
    rewrite (mapM_Ok_all np_dtype_of (fun _ => d)).
    + cbn. rewrite for_each_Ok; [done|].
      intros y (o & -> & _)%list_elem_of_fmap. by rewrite bool_decide_false by auto.
    + intros o [->|Ho]%elem_of_cons; [done | by apply Hothers].
Qed.

Lemma mapM_np_dtype_of_arrays (arrays : list ManifestArray) :
  mapM np_dtype_of (an_array <$> arrays) = mapM dtype arrays.
Proof.
  induction arrays as [|a arrays IH]; [done|].
  cbn [fmap list_fmap mapM]. by rewrite IH.
Qed.

(** X9.  On a group of arrays whose dtypes can be read, [result_type]
    accepts the group exactly when the dtype validator of [concatenate]
    does: it returns the first dtype when the validator passes, and raises
    its [ValueError] when the validator raises. *)
Theorem result_type_agrees_with_dtype_validator
    (arrays : list ManifestArray) (first_dtype : Dtype) (other_dtypes : list Dtype) :
  mapM dtype arrays = Ok (first_dtype :: other_dtypes) →
  match _check_same_dtypes (first_dtype :: other_dtypes) with
  | Ok _ => result_type (an_array <$> arrays) = Ok first_dtype
  | Raise _ =>
      result_type (an_array <$> arrays) = Raise (ValueError "dtypes not all consistent")
  end.
Proof.
  intros Hmap. unfold result_type, _check_same_dtypes.
  rewrite mapM_np_dtype_of_arrays, Hmap. cbn.
  induction other_dtypes as [|d ds IH] in |- *; cbn; [done|].
  case_bool_decide; cbn; [done|].
  exact IH.
Qed.

Lemma result_type_agrees_with_dtype_validator_witness :
  result_type (an_array <$> [arr_3x4; arr_5x4_int32])
    = Raise (ValueError "dtypes not all consistent").
Proof.
  apply (result_type_agrees_with_dtype_validator [arr_3x4; arr_5x4_int32]
           float64 [int32]).
  reflexivity.
Defined.

(** ** Which failure [concatenate] reports *)

(** X10.  [concatenate] reports the first failing validator in the order
    dtype, shape, codec: a dtype mismatch is reported whatever the shapes
    and codecs are, a shape failure is reported only when the dtypes
    agree, a codec mismatch only when dtypes and shapes pass; the log
    holds the validators called so far and nothing else. *)
Theorem concatenate_reports_first_failing_validator
    (arrays : list ManifestArray) (axis : Z) (t : list event) (e : exn)
    (dtypes : list Dtype) :
  mapM dtype arrays = Ok dtypes →
  (_check_same_dtypes dtypes = Raise e →
     concatenate arrays (Some axis) t = (Raise e, t ++ [Call "_check_same_dtypes"]))
  ∧ (_check_same_dtypes dtypes = Ok () →
     ∀ shapes, mapM shape arrays = Ok shapes →
       (_check_same_shapes_except_on_concat_axis shapes axis = Raise e →
          concatenate arrays (Some axis) t
            = (Raise e, t ++ [Call "_check_same_dtypes";
                              Call "_check_same_shapes_except_on_concat_axis"]))
       ∧ (_check_same_shapes_except_on_concat_axis shapes axis = Ok () →
          ∀ codecs,
            mapM (fun arr => getattr "codec" zarray_codec (zarray arr)) arrays
              = Ok codecs →
            _check_same_codecs codecs = Raise e →
            concatenate arrays (Some axis) t = (Raise e, t ++ validator_calls))).
Proof.
  intros Hd. rewrite concatenate_after_validators, Hd, bind_lift_Ok. split.
  - intros ->. by rewrite bind_call_Raise.
  - intros -> shapes Hs. rewrite bind_call_Ok, Hs, bind_lift_Ok. split.
    + intros ->. by rewrite bind_call_Raise, <- app_assoc.
    + intros -> codecs Hc He.
      by rewrite bind_call_Ok, Hc, bind_lift_Ok, He, bind_call_Raise, <- !app_assoc.
Qed.

Lemma concatenate_reports_first_failing_validator_witness :
  ∃ e,
    class_of e = cValueError
    ∧ concatenate [arr_3x4; make_array "b.nc" [5; 7] int32 blosc] (Some 0) []
      = (Raise e, [] ++ [Call "_check_same_dtypes"]).
Proof.
  eexists. split; [|
    apply (concatenate_reports_first_failing_validator
             [arr_3x4; make_array "b.nc" [5; 7] int32 blosc] 0 [] _
             [float64; int32]); reflexivity ].
  reflexivity.
Defined.

(** ** Arrays without metadata *)

Lemma mapM_dtype_missing (arrays : list ManifestArray) (a : ManifestArray) :
  a ∈ arrays → _zarray a = None →
  mapM dtype arrays
    = Raise (AttributeError "'NoneType' object has no attribute 'dtype'").
Proof.
  intros Hin Hnone. induction arrays as [|b arrays IH]; [by apply elem_of_nil in Hin|].
  cbn [mapM].
  assert (dtype b = Raise (AttributeError "'NoneType' object has no attribute 'dtype'")
          ∨ ∃ d, dtype b = Ok d) as [Hb | [d Hb]].
  { unfold dtype, zarray, getattr. destruct (_zarray b); [right; by eexists | by left]. }
  - by rewrite Hb.
  - apply elem_of_cons in Hin as [->|Hin].
    + unfold dtype, zarray in Hb. by rewrite Hnone in Hb.
    + rewrite Hb. cbn. by rewrite (IH Hin).
Qed.

(** X11.  When some array of the group has no metadata, [concatenate] with
    an integer axis raises the [AttributeError] of reading [dtype] on
    [None], before any validator is called. *)
Theorem concatenate_rejects_missing_metadata
    (arrays : list ManifestArray) (axis : Z) (t : list event) :
  (∃ a, a ∈ arrays ∧ _zarray a = None) →
  concatenate arrays (Some axis) t
    = (Raise (AttributeError "'NoneType' object has no attribute 'dtype'"), t).
Proof.
  intros (a & Hin & Hnone).
  by rewrite concatenate_after_validators, (mapM_dtype_missing _ _ Hin Hnone),
    bind_lift_Raise.
Qed.

Lemma concatenate_rejects_missing_metadata_witness :
  concatenate [arr_3x4; {| _manifest := one_chunk "b.nc" [5; 4]; _zarray := None |}]
    (Some 0) []
    = (Raise (AttributeError "'NoneType' object has no attribute 'dtype'"), []).
Proof.
  apply concatenate_rejects_missing_metadata.
  exists {| _manifest := one_chunk "b.nc" [5; 4]; _zarray := None |}.
  split; [apply list_elem_of_further, list_elem_of_here | reflexivity].
Defined.

(** X12.  An array returned by [concatenate] cannot be concatenated again:
    any group that contains it makes [concatenate] raise [AttributeError]
    before a validator is called. *)
Theorem concatenate_output_cannot_be_concatenated
    (arrays group : list ManifestArray) (axis : option Z) (axis' : Z)
    (t t' t'' : list event) (r : ManifestArray) :
  concatenate arrays axis t = (Ok r, t') →
  r ∈ group →
  concatenate group (Some axis') t''
    = (Raise (AttributeError "'NoneType' object has no attribute 'dtype'"), t'').
Proof.
  intros [Hnone _]%concatenate_returns_no_metadata Hin.
  by rewrite concatenate_after_validators, (mapM_dtype_missing _ _ Hin Hnone),
    bind_lift_Raise.
Qed.

Lemma concatenate_output_cannot_be_concatenated_witness :
  ∃ r t',
    concatenate [arr_3x4; arr_5x4] (Some 0) [] = (Ok r, t')
    ∧ concatenate [r; arr_3x4] (Some 0) []
      = (Raise (AttributeError "'NoneType' object has no attribute 'dtype'"), []).
Proof.
  eexists _, _. split; [vm_compute; reflexivity|].
  eapply (concatenate_output_cannot_be_concatenated [arr_3x4; arr_5x4] _ (Some 0) 0 []).
  - vm_compute. reflexivity.
  - apply list_elem_of_here.
Defined.

(** ** After the validators *)

Lemma mapM_Ok_exists {A B} (f : A → result B) (l : list A) :
  (∀ x, x ∈ l → ∃ y, f x = Ok y) → ∃ ys, mapM f l = Ok ys.
Proof.
  induction l as [|x l IH]; intros Hall; cbn [mapM]; [by eexists|].
  destruct (Hall x (list_elem_of_here _ _)) as [y ->].
  destruct IH as [ys ->];
    [intros z Hz; apply Hall; by apply list_elem_of_further|].
  by eexists.
Qed.

Lemma pop_ok_position {A} (l w : list A) (i : Z) :
  list_pop l i = Ok w → ∃ k, normalize_index (length l) i = Some k ∧ (k < length l)%nat.
Proof.
  unfold list_pop. destruct l as [|x l]; [done|].
  destruct (normalize_index _ _) as [k|] eqn:Hk; [|done].
  intros _. exists k. split; [done | by eapply normalize_index_lt].
Qed.

Lemma pop_ok_getitem_ok {A} (l w : list A) (i : Z) :
  list_pop l i = Ok w → ∃ x, tuple_getitem l i = Ok x.
Proof.
  intros (k & Hk & Hlt)%pop_ok_position. unfold tuple_getitem. rewrite Hk. cbn.
  destruct (lookup_lt_is_Some_2 l k Hlt) as [x ->]. by eexists.
Qed.

Lemma pop_ok_setitem_ok {A} (l w : list A) (i : Z) (x : A) :
  list_pop l i = Ok w → ∃ l', list_setitem l i x = Ok l'.
Proof.
  intros (k & Hk & _)%pop_ok_position. unfold list_setitem. rewrite Hk. by eexists.
Qed.

(** Once the shape validator has passed, the statements that compute the
    new shape cannot fail, and the outcome of [concatenate] is decided by
    [concat_manifests] alone. *)
Lemma derive_output_run (arrays : list ManifestArray) (axis : Z)
    (shapes : list (list Z)) (t : list event) :
  mapM shape arrays = Ok shapes →
  _check_same_shapes_except_on_concat_axis shapes axis = Ok () →
  derive_output arrays axis shapes t =
    match concat_manifests_result (_manifest <$> arrays) axis with
    | Ok m =>
        let r := {| _manifest := m; _zarray := None |} in
        (Ok r, t ++ [Call "concat_manifests"; NewChunkManifest m;
                     Call "_replace_shape"; NewManifestArray r])
    | Raise e => (Raise e, t ++ [Call "concat_manifests"])
    end.
Proof.
  intros Hshapes Hcheck. unfold _check_same_shapes_except_on_concat_axis in Hcheck.
  destruct (mapM _ shapes) as [without|e] eqn:Hrem; [|done].
  apply mapM_Ok_inv in Hrem.
  destruct Hrem as [|first_shape w0 shapes' without' Hfirst Hrest]; [done|].
  clear Hcheck.
  apply mapM_Ok_inv in Hshapes.
  inversion Hshapes as [|first_array s0 arrays' s' _ _ Harrays]; subst.
  destruct (mapM_Ok_exists (fun shape => tuple_getitem shape axis)
              (first_shape :: shapes')) as [lengths Hlengths].
  { intros s [->|Hs]%elem_of_cons.
    - by eapply pop_ok_getitem_ok.
    - destruct (Forall2_member_l _ _ _ _ Hrest Hs) as (w & _ & Hw).
      by eapply pop_ok_getitem_ok. }
  destruct (pop_ok_setitem_ok _ _ _ (py_sum lengths) Hfirst) as [new_shape Hset].
  unfold derive_output.
  rewrite Hlengths, bind_lift_Ok. cbn [unpack_first]. rewrite bind_lift_Ok.
  cbv beta iota. rewrite Hset. cbn [fmap result_fmap]. rewrite bind_lift_Ok.
  rewrite bind_unfold, concat_manifests_run.
  destruct (concat_manifests_result _ _) as [m|e]; [|done].
  assert (tuple_getitem (first_array :: arrays') 0 = Ok first_array) as ->.
  { unfold tuple_getitem, normalize_index.
    rewrite bool_decide_true by (simpl; lia). done. }
  rewrite bind_lift_Ok, bind_call_Ok. unfold __init__, _replace_shape.
  rewrite bind_emit. unfold mret, M_ret. cbv zeta.
  by rewrite <- !app_assoc.
Qed.

(** X13.  When the three validators pass, [concatenate] cannot fail in the
    statements that compute the new shape: it calls [concat_manifests] on
    the manifests of the inputs and the same axis, raises what that call
    raises, and otherwise builds exactly one manifest and one array, the
    array holding the manifest returned and [None] for metadata. *)
Theorem concatenate_after_validation
    (arrays : list ManifestArray) (axis : Z) (t : list event)
    (dtypes : list Dtype) (shapes : list (list Z)) (codecs : list Codec) :
  mapM dtype arrays = Ok dtypes →
  _check_same_dtypes dtypes = Ok () →
  mapM shape arrays = Ok shapes →
  _check_same_shapes_except_on_concat_axis shapes axis = Ok () →
  mapM (fun arr => getattr "codec" zarray_codec (zarray arr)) arrays = Ok codecs →
  _check_same_codecs codecs = Ok () →
  concatenate arrays (Some axis) t =
    match concat_manifests_result (_manifest <$> arrays) axis with
    | Ok m =>
        let r := {| _manifest := m; _zarray := None |} in
        (Ok r, t ++ validator_calls
                 ++ [Call "concat_manifests"; NewChunkManifest m;
                     Call "_replace_shape"; NewManifestArray r])
    | Raise e => (Raise e, t ++ validator_calls ++ [Call "concat_manifests"])
    end.
Proof.
  intros Hd Hcd Hs Hcs Hc Hcc.
  rewrite concatenate_after_validators.
  rewrite Hd, bind_lift_Ok, Hcd, bind_call_Ok.
  rewrite Hs, bind_lift_Ok, Hcs, bind_call_Ok.
  rewrite Hc, bind_lift_Ok, Hcc, bind_call_Ok.
  rewrite (derive_output_run _ _ _ _ Hs Hcs).
  destruct (concat_manifests_result _ _); cbv zeta; by rewrite <- !app_assoc.
Qed.

Lemma concatenate_after_validation_witness :
  ∃ m,
    concat_manifests_result (_manifest <$> [arr_3x4; arr_5x4]) 0 = Ok m
    ∧ (concatenate [arr_3x4; arr_5x4] (Some 0) []).1
      = Ok {| _manifest := m; _zarray := None |}.
Proof.
  eexists. split; [vm_compute; reflexivity|].
  rewrite (concatenate_after_validation [arr_3x4; arr_5x4] 0 []
             [float64; float64] [[3; 4]; [5; 4]] [zlib; zlib]);
    [| reflexivity | vm_compute; reflexivity | reflexivity
     | vm_compute; reflexivity | reflexivity | vm_compute; reflexivity ].
  vm_compute. reflexivity.
Defined.

(** X14.  Whenever [concatenate] returns, the three validators have
    passed, the manifest of the result is the one [concat_manifests]
    returns for the manifests of the inputs and the same axis, and the run
    has added to the log the three validator calls followed by the
    building of that one manifest and of the one array returned. *)
Theorem concatenate_success_inversion
    (arrays : list ManifestArray) (axis : Z) (t t' : list event) (r : ManifestArray) :
  concatenate arrays (Some axis) t = (Ok r, t') →
  some_check_fails arrays axis = false
  ∧ ∃ m,
      concat_manifests_result (_manifest <$> arrays) axis = Ok m
      ∧ r = {| _manifest := m; _zarray := None |}
      ∧ t' = t ++ validator_calls
               ++ [Call "concat_manifests"; NewChunkManifest m;
                   Call "_replace_shape"; NewManifestArray r].
Proof.
  rewrite concatenate_after_validators.
  unfold some_check_fails, dtype_check_fails, shape_check_fails,
    codec_check_fails, fails.
  step; [|done]. step; [|done]. step; [|done].
  step; [|done]. step; [|done]. step; [|done].
  repeat match goal with u : () |- _ => destruct u end.
  match goal with
  | Hs : mapM shape arrays = Ok ?shapes,
    Hc : _check_same_shapes_except_on_concat_axis ?shapes axis = Ok () |- _ =>
      rewrite (derive_output_run _ _ _ _ Hs Hc)
  end.
  destruct (concat_manifests_result _ _) as [m|e]; [|done].
  cbv zeta. intros [= <- <-]. split; [done|].
  exists m. split; [done|]. split; [done|]. by rewrite <- !app_assoc.
Qed.

Lemma concatenate_success_inversion_witness :
  some_check_fails [arr_3x4; arr_5x4] 0 = false
  ∧ ∃ r t' m,
      concatenate [arr_3x4; arr_5x4] (Some 0) [] = (Ok r, t')
      ∧ concat_manifests_result (_manifest <$> [arr_3x4; arr_5x4]) 0 = Ok m
      ∧ r = {| _manifest := m; _zarray := None |}.
Proof.
  assert (∃ r t', concatenate [arr_3x4; arr_5x4] (Some 0) [] = (Ok r, t'))
    as (r & t' & Hrun) by (eexists _, _; vm_compute; reflexivity).
  destruct (concatenate_success_inversion _ _ _ _ _ Hrun)
    as (Hpass & m & Hm & Hr & _).
  split; [exact Hpass|]. by exists r, t', m.
Defined.

(** ** What the hook handles *)

(** X15.  The registry holds [numpy.concatenate] and [numpy.result_type]
    and nothing else: for every other NumPy function ([numpy.stack]
    included) the hook returns [NotImplemented], whatever the operand
    types and the arguments. *)
Theorem array_function_handles_only_two (self : ManifestArray) (func : string)
    (types : list pyclass) (args : list pyval) (kwargs : gmap string pyval)
    (t : list event) :
  func ≠ np_concatenate → func ≠ np_result_type →
  __array_function__ self func types args kwargs t = (Ok PyNotImplemented, t).
Proof.
  intros Hc Hr. unfold __array_function__. rewrite registry_lookup.
  rewrite decide_False by done. rewrite decide_False by done.
  by rewrite bool_decide_false by (by intros [? ?]).
Qed.

Lemma array_function_handles_only_two_witness :
  __array_function__ arr_3x4 "numpy.stack" [ManifestArray_class]
    [PySeq [PyArray arr_3x4; PyArray arr_5x4]] ∅ []
    = (Ok PyNotImplemented, []).
Proof.
  apply array_function_handles_only_two; discriminate.
Defined.

(** X16.  Through the hook, [numpy.concatenate] with [axis=None] on a
    group of arrays whose operand types are all subclasses of
    [ManifestArray] raises the [NotImplementedError] of [concatenate]: the
    hook does not turn it into [NotImplemented]. *)
Theorem array_function_concatenate_axis_none (self : ManifestArray)
    (types : list pyclass) (arrays : list ManifestArray) (t : list event) :
  (∀ c, c ∈ types → issubclass c ManifestArray_class = true) →
  __array_function__ self np_concatenate types
    [PySeq (PyArray <$> arrays)] {[ "axis" := PyNone ]} t
    = (Raise (NotImplementedError axis_none_message), t).
Proof.
  intros Htypes.
  assert (HANDLED_ARRAY_FUNCTIONS !! np_concatenate = Some concatenate_callable)
    as Hregistered by (by rewrite registry_lookup).
  unfold __array_function__.
  rewrite !Hregistered, (forallb_true_of_all _ _ Htypes).
  change (concatenate_callable [PySeq (PyArray <$> arrays)] {[ "axis" := PyNone ]} t
          = (Raise (NotImplementedError axis_none_message), t)).
  unfold concatenate_callable.
  rewrite bool_decide_true by apply delete_singleton_eq.
  rewrite lookup_singleton_eq, as_arrays_of_arrays. reflexivity.
Qed.

Lemma array_function_concatenate_axis_none_witness :
  __array_function__ arr_3x4 np_concatenate [ManifestArray_class]
    [PySeq (PyArray <$> [arr_3x4; arr_5x4])] {[ "axis" := PyNone ]} []
    = (Raise (NotImplementedError axis_none_message), []).
Proof.
  apply array_function_concatenate_axis_none.
  intros c ->%list_elem_of_singleton. reflexivity.
Defined.

(** ** [__repr__] *)

(** X17.  [__repr__] succeeds on every array that has metadata, and the
    text it returns prints the shape, the dtype and the chunk shape; on an
    array without metadata it raises the [AttributeError] of reading
    [shape]. *)
Theorem repr_prints_the_metadata (self : ManifestArray) :
  (∀ z, _zarray self = Some z →
     ∃ text,
       __repr__ self = Ok text
       ∧ contains (repr_tuple (zarray_shape z)) text = true
       ∧ contains (str_dtype (zarray_dtype z)) text = true
       ∧ contains (repr_tuple (zarray_chunks z)) text = true)
  ∧ (_zarray self = None →
     __repr__ self
       = Raise (AttributeError "'NoneType' object has no attribute 'shape'")).
Proof.
  unfold __repr__, shape, dtype, chunks, zarray, np_dtype, py_int. split.
  - intros z ->. cbn [getattr mbind result_bind]. rewrite map_id.
    eexists. split; [reflexivity|]. split; [|split].
    + apply contains_append_l, contains_here.
    + do 3 apply contains_append_l. apply contains_here.
    + do 5 apply contains_append_l. apply contains_here.
  - by intros ->.
Qed.

Lemma repr_prints_the_metadata_witness :
  __repr__ arr_3x4 = Ok "ManifestArray<shape=(3, 4), dtype=float64, chunks=(3, 4)>"
  ∧ ∃ text,
      __repr__ arr_3x4 = Ok text
      ∧ contains (repr_tuple [3; 4]) text = true
      ∧ contains (str_dtype float64) text = true
      ∧ contains (repr_tuple [3; 4]) text = true.
Proof.
  split; [vm_compute; reflexivity|].
  destruct (repr_prints_the_metadata arr_3x4) as [Hsome _].
  apply (Hsome {| zarray_shape := [3; 4]; zarray_chunks := [3; 4];
                  zarray_dtype := float64; zarray_codec := zlib |}).
  reflexivity.
Defined.

(** ** [size] of an array with an empty dimension *)

Lemma np_prod_int64 (t : list Z) :
  t ≠ [] → Forall (fun n => int64_min <= n <= int64_max) t →
  np_prod t = np_int64 (wrap64 (product t)).
Proof.
  intros Hne Hfits. unfold np_prod. destruct t as [|x t]; [done|].
  assert (forallb fits_int64 (x :: t) = true) as ->.
  { clear -Hfits. induction Hfits as [|y l Hy _ IH]; [done|].
    cbn [forallb]. rewrite IH. unfold fits_int64. by rewrite bool_decide_true. }
  f_equal.
  rewrite <- (wrap64_fits 1) at 1 by (unfold int64_min, int64_max; lia).
  rewrite foldl_mul64. f_equal. lia.
Qed.

Lemma product_zero (t : list Z) : 0 ∈ t → product t = 0.
Proof.
  induction t as [|x t IH]; [by intros ?%elem_of_nil|].
  intros [<-|Hin]%elem_of_cons; cbn [product foldr].
  - done.
  - fold (product t). rewrite (IH Hin). lia.
Qed.

(** X18.  An array one of whose dimensions has length 0, with all lengths
    fitting in 64 bits, has [size] 0, even when the product of the other
    lengths does not fit in 64 bits. *)
Theorem size_of_empty_dimension (self : ManifestArray) (z : ZArray) :
  _zarray self = Some z →
  Forall (fun n => int64_min <= n <= int64_max) (zarray_shape z) →
  0 ∈ zarray_shape z →
  size self = Ok (np_int64 0).
Proof.
  intros Hz Hfits Hzero.
  unfold size, shape, zarray, py_int. rewrite Hz. cbn. rewrite map_id.
  rewrite np_prod_int64; [| by intros Hnil; rewrite Hnil in Hzero; apply elem_of_nil in Hzero | done].
  by rewrite product_zero.
Qed.

Lemma size_of_empty_dimension_witness :
  size (make_array "a.nc" [2 ^ 40; 2 ^ 40; 0] float64 zlib) = Ok (np_int64 0).
Proof.
  apply (size_of_empty_dimension
           (make_array "a.nc" [2 ^ 40; 2 ^ 40; 0] float64 zlib)
           {| zarray_shape := [2 ^ 40; 2 ^ 40; 0];
              zarray_chunks := [2 ^ 40; 2 ^ 40; 0];
              zarray_dtype := float64; zarray_codec := zlib |}).
  - reflexivity.
  - repeat constructor; vm_compute; discriminate.
  - do 2 apply list_elem_of_further. apply list_elem_of_here.
Defined.

(** ** Ranks of the inputs *)

Lemma pop_ok_length {A} (l w : list A) (i : Z) :
  list_pop l i = Ok w →
  S (length w) = length l ∧ - Z.of_nat (length l) <= i < Z.of_nat (length l).
Proof.
  intros Hpop. destruct (pop_ok_position _ _ _ Hpop) as (k & Hk & Hlt).
  unfold list_pop in Hpop. destruct l as [|x l]; [done|].
  rewrite Hk in Hpop. injection Hpop as <-.
  apply normalize_index_Some in Hk as [Hrange _]. split; [|done].
  rewrite length_delete by (by apply lookup_lt_is_Some). lia.
Qed.

Lemma concatenate_Ok_shapes (arrays : list ManifestArray) (axis : Z)
    (t t' : list event) (r : ManifestArray) :
  concatenate arrays (Some axis) t = (Ok r, t') →
  ∃ shapes,
    mapM shape arrays = Ok shapes
    ∧ _check_same_shapes_except_on_concat_axis shapes axis = Ok ().
Proof.
  rewrite concatenate_after_validators.
  step; [|done]. step; [|done]. step; [|done]. step; [|done].
  repeat match goal with u : () |- _ => destruct u end.
  intros _. by eexists.
Qed.

(** X19.  Whenever [concatenate] returns, all the inputs have the same
    number of dimensions [n], with [n >= 1], and the axis satisfies
    [-n <= axis < n]. *)
Theorem concatenate_inputs_have_one_rank
    (arrays : list ManifestArray) (axis : Z) (t t' : list event) (r : ManifestArray) :
  concatenate arrays (Some axis) t = (Ok r, t') →
  ∃ n : Z,
    1 <= n ∧ - n <= axis < n
    ∧ ∀ a, a ∈ arrays → ndim a = Ok n.
Proof.
  intros (shapes & Hshapes & Hcheck)%concatenate_Ok_shapes.
  unfold _check_same_shapes_except_on_concat_axis in Hcheck.
  destruct (mapM _ shapes) as [without|e] eqn:Hrem; [|done].
  apply mapM_Ok_inv in Hrem.
  destruct without as [|w0 ws]; [done|]. cbn in Hcheck.
  assert (∀ s, s ∈ shapes →
            S (length w0) = length s
            ∧ - Z.of_nat (length s) <= axis < Z.of_nat (length s)) as Hrank.
  { intros s Hs. destruct (Forall2_member_l _ _ _ _ Hrem Hs) as (w & Hw & Hpop).
    apply pop_ok_length in Hpop.
    apply elem_of_cons in Hw as [->|Hw]; [done|].
    apply (for_each_Ok_inv _ _ Hcheck) in Hw.
    case_bool_decide; [done|]. by subst. }
  exists (Z.of_nat (S (length w0))).
  inversion Hrem as [|s0 w0' shapes' ws' Hs0 _]; subst.
  destruct (Hrank s0 (list_elem_of_here _ _)) as [Hlen Hrange].
  split; [lia|]. split; [lia|].
  intros a Ha. apply mapM_Ok_inv in Hshapes.
  destruct (Forall2_member_l _ _ _ _ Hshapes Ha) as (s & Hs & Hshape).
  unfold ndim. rewrite Hshape. cbn.
  destruct (Hrank s Hs) as [<- _]. done.
Qed.

Lemma concatenate_inputs_have_one_rank_witness :
  ∃ n : Z,
    1 <= n ∧ - n <= 0 < n
    ∧ ∀ a, a ∈ [arr_3x4; arr_5x4] → ndim a = Ok n.
Proof.
  assert (∃ r t', concatenate [arr_3x4; arr_5x4] (Some 0) [] = (Ok r, t'))
    as (r & t' & Hrun) by (eexists _, _; vm_compute; reflexivity).
  exact (concatenate_inputs_have_one_rank _ _ _ _ _ Hrun).
Defined.
